(** * Fractary plugin definition converters

    A shallow embedding of the two batch scripts of the repository,

    - [convert-to-markdown-format.py]: [tool.yaml] / [agent.yaml] to
      Markdown with YAML frontmatter, and
    - [embed-system-prompts.py]: folding [SKILL.md] into [tool.yaml],

    together with the properties their specification states about them.

    Conventions of the embedding.
    - A Python [str] is a Rocq [string]; case and whitespace are the ASCII
      ones, a byte above 127 is neither cased nor white space.
    - A value loaded from YAML is a [yaml] tree; a Python [dict] is an
      association list in insertion order (PyYAML and [dict] both keep it,
      and the output is dumped with [sort_keys=False]).
    - A Python exception is a [Raise] result; [try]/[except] is a match.
    - PyYAML is not part of the repository: [yaml.safe_load] and
      [yaml.dump] are parameters of the development. *)

From Stdlib Require Import ZArith String Ascii List Bool Arith Lia DecimalString.
Import ListNotations.
Open Scope list_scope.
Open Scope string_scope.
Set Warnings "-register-all".

(** ** Python string built-ins *)

Module Py.

(** [str.isspace] on one ASCII character: TAB..CR, FS..US and SPACE. *)
Definition is_space (c : ascii) : bool :=
  let n := nat_of_ascii c in
  (((9 <=? n) && (n <=? 13)) || ((28 <=? n) && (n <=? 32)))%nat.

Definition is_upper (c : ascii) : bool :=
  let n := nat_of_ascii c in ((65 <=? n) && (n <=? 90))%nat.

Definition is_lower (c : ascii) : bool :=
  let n := nat_of_ascii c in ((97 <=? n) && (n <=? 122))%nat.

Definition is_cased (c : ascii) : bool := is_upper c || is_lower c.

Definition to_upper (c : ascii) : ascii :=
  if is_lower c then ascii_of_nat (nat_of_ascii c - 32) else c.

Definition to_lower (c : ascii) : ascii :=
  if is_upper c then ascii_of_nat (nat_of_ascii c + 32) else c.

(** [s.lstrip()] *)
Fixpoint lstrip (s : string) : string :=
  match s with
  | String c s' => if is_space c then lstrip s' else s
  | EmptyString => EmptyString
  end.

(** [s.rstrip()] *)
Fixpoint rstrip (s : string) : string :=
  match s with
  | String c s' =>
      match rstrip s' with
      | EmptyString => if is_space c then EmptyString else String c EmptyString
      | r => String c r
      end
  | EmptyString => EmptyString
  end.

(** [s.strip()] *)
Definition strip (s : string) : string := rstrip (lstrip s).

(** [s.startswith(p)] *)
Fixpoint startswith (s p : string) {struct p} : bool :=
  match p with
  | String a p' =>
      match s with
      | String b s' => Ascii.eqb a b && startswith s' p'
      | EmptyString => false
      end
  | EmptyString => true
  end.

(** Drop the first [n] characters. *)
Fixpoint drop (n : nat) (s : string) {struct n} : string :=
  match n, s with
  | S n', String _ s' => drop n' s'
  | _, _ => s
  end.

(** [s.partition(sep)] when [sep] occurs: the text before the leftmost
    occurrence and the text after it. *)
Fixpoint cut (sep s : string) : option (string * string) :=
  if startswith s sep then Some (EmptyString, drop (String.length sep) s)
  else match s with
       | String c s' =>
           match cut sep s' with
           | Some (a, b) => Some (String c a, b)
           | None => None
           end
       | EmptyString => None
       end.

(** [s.split(sep, maxsplit)] for a non-empty [sep]: at most [maxsplit]
    cuts, leftmost first. *)
Fixpoint split (sep : string) (maxsplit : nat) (s : string) : list string :=
  match maxsplit with
  | S m =>
      match cut sep s with
      | Some (a, b) => a :: split sep m b
      | None => [s]
      end
  | O => [s]
  end.

(** [sub in s] *)
Definition contains (sub s : string) : bool :=
  match cut sub s with Some _ => true | None => false end.

(** [s.replace(old, new)] for one-character [old] and [new]. *)
Fixpoint replace (old new : ascii) (s : string) : string :=
  match s with
  | String c s' => String (if Ascii.eqb c old then new else c) (replace old new s')
  | EmptyString => EmptyString
  end.

(** [s.title()]: a character that follows a cased one is lower-cased, any
    other is upper-cased. *)
Fixpoint title_from (previous_is_cased : bool) (s : string) : string :=
  match s with
  | String c s' =>
      String (if previous_is_cased then to_lower c else to_upper c)
             (title_from (is_cased c) s')
  | EmptyString => EmptyString
  end.

Definition title (s : string) : string := title_from false s.


End Py.

(** ** YAML values and Python dictionaries *)

Inductive yaml : Type :=
| YNull
| YBool (b : bool)
| YInt (z : Z)
| YStr (s : string)
| YList (items : list yaml)
| YMap (fields : list (string * yaml)).

Definition dict := list (string * yaml).

(** Truth value of a loaded object ([if x], [x or y], [not x]). *)
Definition truthy (v : yaml) : bool :=
  match v with
  | YNull => false
  | YBool b => b
  | YInt z => negb (Z.eqb z 0)
  | YStr s => negb (String.eqb s "")
  | YList l => match l with [] => false | _ => true end
  | YMap d => match d with [] => false | _ => true end
  end.

(** [d.get(k)] *)
Fixpoint dict_get (k : string) (d : dict) : option yaml :=
  match d with
  | (k', v) :: d' => if String.eqb k' k then Some v else dict_get k d'
  | [] => None
  end.

(** [k in d] *)
Definition dict_mem (k : string) (d : dict) : bool :=
  match dict_get k d with Some _ => true | None => false end.

(** [d.get(k, default)] *)
Definition dict_get_default (k : string) (default : yaml) (d : dict) : yaml :=
  match dict_get k d with Some v => v | None => default end.

(** [d[k] = v]: an existing key keeps its position, a new one goes last. *)
Fixpoint dict_set (k : string) (v : yaml) (d : dict) : dict :=
  match d with
  | (k', v') :: d' =>
      if String.eqb k' k then (k', v) :: d' else (k', v') :: dict_set k v d'
  | [] => [(k, v)]
  end.

(** [{k': v for k', v in d.items() if k' != k}], also [d] after [d.pop(k)]. *)
Definition dict_remove (k : string) (d : dict) : dict :=
  filter (fun kv => negb (String.eqb (fst kv) k)) d.

(** The keys of [d], in order. *)
Definition dict_keys (d : dict) : list string := map fst d.

(** [repr(s)] of a string: single quotes unless the text has a single
    quote and no double quote; backslash, the quote, and control
    characters are escaped. *)
Definition hex_digit (n : nat) : ascii :=
  ascii_of_nat (if (n <? 10)%nat then 48 + n else 87 + n).

Definition repr_char (quote c : ascii) : string :=
  let n := nat_of_ascii c in
  if Ascii.eqb c "\"%char then "\\"
  else if Ascii.eqb c quote then String "\"%char (String c EmptyString)
  else if (n =? 10)%nat then "\n"
  else if (n =? 13)%nat then "\r"
  else if (n =? 9)%nat then "\t"
  else if ((n <? 32) || (n =? 127))%nat
       then String "\"%char (String "x"%char
              (String (hex_digit (n / 16)) (String (hex_digit (n mod 16)) EmptyString)))
  else String c EmptyString.

Fixpoint repr_chars (quote : ascii) (s : string) : string :=
  match s with
  | String c s' => repr_char quote c ++ repr_chars quote s'
  | EmptyString => EmptyString
  end.

Definition has_char (c : ascii) (s : string) : bool :=
  Py.contains (String c EmptyString) s.

Definition dquote : ascii := ascii_of_nat 34.

Definition repr_str (s : string) : string :=
  let quote : ascii :=
    if has_char "'"%char s && negb (has_char dquote s) then dquote else "'"%char in
  String quote (repr_chars quote s ++ String quote EmptyString).

(** [repr(v)] *)
Fixpoint py_repr (v : yaml) : string :=
  match v with
  | YNull => "None"
  | YBool b => if b then "True" else "False"
  | YInt z => NilZero.string_of_int (Z.to_int z)
  | YStr s => repr_str s
  | YList l => "[" ++ String.concat ", " (map py_repr l) ++ "]"
  | YMap d =>
      "{" ++ String.concat ", "
               (map (fun kv => let '(k, x) := kv in repr_str k ++ ": " ++ py_repr x) d)
          ++ "}"
  end.

(** [str(v)] *)
Definition py_str (v : yaml) : string :=
  match v with
  | YStr s => s
  | _ => py_repr v
  end.

(** ** Exceptions *)

Inductive exn : Type :=
| AttributeError
| TypeError
| KeyError
| OSError
| YAMLError.

Inductive result (A : Type) : Type :=
| Ok (a : A)
| Raise (e : exn).
Arguments Ok {A} a.
Arguments Raise {A} e.

Definition bind {A B : Type} (r : result A) (k : A -> result B) : result B :=
  match r with
  | Ok a => k a
  | Raise e => Raise e
  end.

Notation "'let*' x ':=' r 'in' k" := (bind r (fun x => k))
  (at level 10, x pattern, r at level 100, k at level 200).

(** Text of an exception as interpolated into a message; only the class
    is kept. *)
Definition exn_text (e : exn) : string :=
  match e with
  | AttributeError => "AttributeError"
  | TypeError => "TypeError"
  | KeyError => "KeyError"
  | OSError => "OSError"
  | YAMLError => "YAMLError"
  end.

(** Line feed, and the texts the scripts build with it. *)
Definition LF : string := String (ascii_of_nat 10) EmptyString.

(** Dynamic dispatch on loaded values: the method exists on a [dict]
    only. *)

(** [obj.get(k, default)] *)
Definition py_get (obj : yaml) (k : string) (default : yaml) : result yaml :=
  match obj with
  | YMap d => Ok (dict_get_default k default d)
  | _ => Raise AttributeError
  end.

(** [d[k]] *)
Definition dict_index (k : string) (d : dict) : result yaml :=
  match dict_get k d with
  | Some v => Ok v
  | None => Raise KeyError
  end.

(** [v == s] for a string literal [s]. *)
Definition is_str (s : string) (v : yaml) : bool :=
  match v with
  | YStr t => String.eqb t s
  | _ => false
  end.

(** [x or {}] *)
Definition or_empty (v : yaml) : yaml := if truthy v then v else YMap [].

(** ** convert-to-markdown-format.py: the transformations *)

Section Converters.

(** [yaml.safe_load] on a text: the loaded object, or [None] when it
    raises [yaml.YAMLError]. *)
Variable safe_load : string -> option yaml.

(** [yaml.dump(obj, default_flow_style=False, sort_keys=False,
    allow_unicode=True)] as a text. *)
Variable dump : yaml -> string.

(** Lines 42-45: the [try] around the load; a falsy result counts as no
    field. *)
Definition load_fields (frontmatter_yaml : string) : yaml :=
  match safe_load frontmatter_yaml with
  | Some v => or_empty v
  | None => YMap []
  end.

(** Lines 20-47. *)
Definition parse_embedded_skill_md (content : string) : yaml * string :=
  if negb (Py.startswith (Py.strip content) "---") then
    (YMap [], Py.strip content)
  else
    let parts := Py.split "---" 2 content in
    if (List.length parts <? 3)%nat then
      (YMap [], Py.strip content)
    else
      let frontmatter_yaml := Py.strip (nth 1 parts "") in
      let body := Py.strip (nth 2 parts "") in
      let frontmatter := load_fields frontmatter_yaml in
      (frontmatter, body).

(** The heading of a generated body: [name.replace('-', ' ').title()]
    after a hash sign. *)
Definition heading (name : string) : string :=
  "# " ++ Py.title (Py.replace "-" " " name).

(** Lines 119 and 168: the body standing for an empty one. *)
Definition no_content_body (dir_name : string) : string :=
  heading dir_name ++ LF ++ LF ++ "(No content)".

(** Line 81: the body of a tool without system prompt. *)
Definition utility_body (name : string) : string :=
  heading name ++ LF ++ LF ++ "Utility tool with no system prompt.".

(** Lines 105-110: the implementation entry, [embedded] turned to [bash]. *)
Definition add_implementation (td frontmatter : dict) : result dict :=
  if dict_mem "implementation" td then
    let* impl := dict_index "implementation" td in
    let* impl_type := py_get impl "type" YNull in
    match impl with
    | YMap fields =>
        let fields' :=
          if is_str "embedded" impl_type then dict_set "type" (YStr "bash") fields
          else fields in
        Ok (dict_set "implementation" (YMap fields') frontmatter)
    | _ => Raise AttributeError
    end
  else Ok frontmatter.

(** Lines 113-116: the model preference of the skill document. *)
Definition add_llm_model (sf frontmatter : dict) : result dict :=
  if dict_mem "model" sf then
    let frontmatter :=
      if negb (dict_mem "llm" frontmatter) then dict_set "llm" (YMap []) frontmatter
      else frontmatter in
    let* model := dict_index "model" sf in
    let* llm := dict_index "llm" frontmatter in
    match llm with
    | YMap fields => Ok (dict_set "llm" (YMap (dict_set "model" model fields)) frontmatter)
    | _ => Raise TypeError
    end
  else Ok frontmatter.

(** Lines 75-119 of [convert_tool_yaml_to_md]: from the loaded record and
    the name of its directory to frontmatter and body. *)
Definition tool_document (tool_name : string) (tool_data : yaml)
  : result (dict * string) :=
  let* system_prompt := py_get tool_data "system_prompt" (YStr "") in
  match tool_data with
  | YMap td =>
      if negb (truthy system_prompt) then
        let frontmatter := dict_remove "system_prompt" td in
        match dict_get_default "name" (YStr tool_name) td with
        | YStr name => Ok (frontmatter, utility_body name)
        | _ => Raise AttributeError
        end
      else
        match system_prompt with
        | YStr content =>
            let '(skill_frontmatter, skill_body) := parse_embedded_skill_md content in
            let* skill_description := py_get skill_frontmatter "description" (YStr "") in
            match skill_frontmatter with
            | YMap sf =>
                let frontmatter : dict :=
                  [ ("name", dict_get_default "name" (YStr tool_name) td);
                    ("type", YStr "tool");
                    ("description", dict_get_default "description" skill_description td);
                    ("version", dict_get_default "version" (YStr "1.0.0") td) ] in
                let* frontmatter :=
                  if dict_mem "tags" td then
                    let* tags := dict_index "tags" td in
                    Ok (dict_set "tags" tags frontmatter)
                  else if dict_mem "tags" sf then
                    let* tags := dict_index "tags" sf in
                    Ok (dict_set "tags" tags frontmatter)
                  else Ok frontmatter in
                let* frontmatter :=
                  if dict_mem "input_schema" td then
                    let* schema := dict_index "input_schema" td in
                    Ok (dict_set "parameters" schema frontmatter)
                  else Ok frontmatter in
                let* frontmatter := add_implementation td frontmatter in
                let* frontmatter := add_llm_model sf frontmatter in
                let body :=
                  if negb (String.eqb skill_body "") then skill_body
                  else no_content_body tool_name in
                Ok (frontmatter, body)
            | _ => Raise AttributeError
            end
        | _ => Raise AttributeError
        end
  | _ => Raise AttributeError
  end.

(** [agent_data.pop('system_prompt', '')]: the value and what is left. *)
Definition py_pop (obj : yaml) (k : string) (default : yaml) : result (yaml * dict) :=
  match obj with
  | YMap d => Ok (dict_get_default k default d, dict_remove k d)
  | YList _ => Raise TypeError
  | _ => Raise AttributeError
  end.

(** Lines 156-168 of [convert_agent_yaml_to_md]. The body is the popped
    value itself, whatever its type. *)
Definition agent_document (agent_name : string) (agent_data : yaml)
  : result (dict * yaml) :=
  let* (system_prompt, agent_data) := py_pop agent_data "system_prompt" (YStr "") in
  let frontmatter := agent_data in
  let frontmatter :=
    if negb (dict_mem "type" frontmatter) then dict_set "type" (YStr "agent") frontmatter
    else frontmatter in
  let frontmatter :=
    if negb (dict_mem "version" frontmatter) then dict_set "version" (YStr "1.0.0") frontmatter
    else frontmatter in
  let body :=
    if truthy system_prompt then system_prompt
    else YStr (no_content_body agent_name) in
  Ok (frontmatter, body).

(** The text of a written file: lines 124-128 and 173-177. *)
Definition render (frontmatter : dict) (body : string) : string :=
  "---" ++ LF ++ dump (YMap frontmatter) ++ "---" ++ LF ++ LF ++ body ++ LF.

End Converters.

(** ** Files

    The directory tree under the working directory, as the regular files
    it holds: a path is its list of components. A directory exists when
    a file lies below it. [readonly] lists the paths that cannot be
    opened for writing. *)

Definition path := list string.

Fixpoint path_eqb (p q : path) : bool :=
  match p, q with
  | a :: p', b :: q' => String.eqb a b && path_eqb p' q'
  | [], [] => true
  | _, _ => false
  end.

(** [q] lies at or below [p]. *)
Fixpoint path_prefix (p q : path) : bool :=
  match p, q with
  | a :: p', b :: q' => String.eqb a b && path_prefix p' q'
  | [], _ => true
  | _, [] => false
  end.

Record world : Type := {
  files : list (path * string);
  readonly : list path
}.

(** [p.parent] and [p.name] *)
Definition parent (p : path) : path := removelast p.
Definition name (p : path) : string := last p "".

Fixpoint lookup_file (p : path) (fs : list (path * string)) : option string :=
  match fs with
  | (q, text) :: fs' => if path_eqb q p then Some text else lookup_file p fs'
  | [] => None
  end.

Fixpoint store_file (p : path) (text : string) (fs : list (path * string))
  : list (path * string) :=
  match fs with
  | (q, old) :: fs' =>
      if path_eqb q p then (q, text) :: fs' else (q, old) :: store_file p text fs'
  | [] => [(p, text)]
  end.

(** [open(p, 'r')] followed by [f.read()] *)
Definition read_text (p : path) (w : world) : result string :=
  match lookup_file p (files w) with
  | Some text => Ok text
  | None => Raise OSError
  end.

(** [open(p, 'w')]: the file is created or emptied. *)
Definition open_write (p : path) (w : world) : result world :=
  if existsb (path_eqb p) (readonly w) then Raise OSError
  else Ok {| files := store_file p "" (files w); readonly := readonly w |}.

(** [f.write(text)] on a file opened by [open_write]. *)
Definition fwrite (p : path) (text : string) (w : world) : world :=
  match lookup_file p (files w) with
  | Some old => {| files := store_file p (old ++ text) (files w); readonly := readonly w |}
  | None => w
  end.

(** [p.exists()] and [p.is_dir()] *)
Definition exists_path (p : path) (w : world) : bool :=
  existsb (fun f => path_prefix p (fst f)) (files w).

Definition is_dir (p : path) (w : world) : bool :=
  existsb (fun f => path_prefix p (fst f) && negb (path_eqb p (fst f))) (files w).

(** [p.iterdir()]: the entries of directory [p], each once. *)
Definition iterdir (p : path) (w : world) : list path :=
  nodup (list_eq_dec string_dec)
    (map (fun f => firstn (S (List.length p)) (fst f))
       (filter (fun f => path_prefix p (fst f) && negb (path_eqb p (fst f))) (files w))).

(** [Path('plugins').glob('*/<kind>/*/<file>')] *)
Definition glob_plugins (kind file : string) (w : world) : list path :=
  let hit (q : path) : bool :=
    match q with
    | root :: _ :: k :: _ :: f :: _ =>
        String.eqb root "plugins" && String.eqb k kind && String.eqb f file
    | _ => false
    end in
  nodup (list_eq_dec string_dec)
    (map (fun f => firstn 5 (fst f)) (filter (fun f => hit (fst f)) (files w))).

(** A [for] loop whose body may raise. *)
Fixpoint for_each {A S : Type} (body : A -> S -> result S) (items : list A) (s : S)
  : result S :=
  match items with
  | a :: rest => let* s' := body a s in for_each body rest s'
  | [] => Ok s
  end.

Definition show_nat (n : nat) : string := NilZero.string_of_uint (Nat.to_uint n).

(** ** convert-to-markdown-format.py: files and batch driver *)

Module Convert.

Section Script.

Variable safe_load : string -> option yaml.
Variable dump : yaml -> string.

(** [yaml.safe_load(f)] on an opened file. *)
Definition load_file (p : path) (w : world) : result yaml :=
  let* text := read_text p w in
  match safe_load text with
  | Some v => Ok v
  | None => Raise YAMLError
  end.

(** Lines 122-132 and 171-181: the [with] block; an exception leaves
    what was written before it. *)
Definition write_md (md_path : path) (frontmatter : dict) (body : yaml) (w : world)
  : world * option exn :=
  match open_write md_path w with
  | Raise e => (w, Some e)
  | Ok w =>
      let w := fwrite md_path ("---" ++ LF) w in
      let w := fwrite md_path (dump (YMap frontmatter)) w in
      let w := fwrite md_path ("---" ++ LF ++ LF) w in
      match body with
      | YStr text => (fwrite md_path LF (fwrite md_path text w), None)
      | _ => (w, Some TypeError)
      end
  end.

Definition convert_tool_yaml_to_md (tool_yaml_path : path) (w : world)
  : result ((bool * string) * world) :=
  let tool_dir := parent tool_yaml_path in
  let tool_name := name tool_dir in
  let tool_md_path := (tool_dir ++ ["tool.md"])%list in
  match load_file tool_yaml_path w with
  | Raise e => Ok ((false, "Failed to read YAML: " ++ exn_text e), w)
  | Ok tool_data =>
      let* (frontmatter, body) := tool_document safe_load tool_name tool_data in
      match write_md tool_md_path frontmatter (YStr body) w with
      | (w, None) => Ok ((true, "Converted to " ++ name tool_md_path), w)
      | (w, Some e) => Ok ((false, "Failed to write MD: " ++ exn_text e), w)
      end
  end.

Definition convert_agent_yaml_to_md (agent_yaml_path : path) (w : world)
  : result ((bool * string) * world) :=
  let agent_dir := parent agent_yaml_path in
  let agent_name := name agent_dir in
  let agent_md_path := (agent_dir ++ ["agent.md"])%list in
  match load_file agent_yaml_path w with
  | Raise e => Ok ((false, "Failed to read YAML: " ++ exn_text e), w)
  | Ok agent_data =>
      let* (frontmatter, body) := agent_document agent_name agent_data in
      match write_md agent_md_path frontmatter body w with
      | (w, None) => Ok ((true, "Converted to " ++ name agent_md_path), w)
      | (w, Some e) => Ok ((false, "Failed to write MD: " ++ exn_text e), w)
      end
  end.

(** The counters of [main], the lines printed so far, and the files. *)
Record state : Type := {
  converted_tools : nat;
  converted_agents : nat;
  skipped : nat;
  errors : nat;
  printed : list string;
  disk : world
}.

Definition print (line : string) (s : state) : state :=
  {| converted_tools := converted_tools s; converted_agents := converted_agents s;
     skipped := skipped s; errors := errors s;
     printed := (printed s ++ [line])%list; disk := disk s |}.

(** Lines 197-207: one turn of the tools loop. *)
Definition tool_turn (tool_yaml : path) (s : state) : result state :=
  let plugin_name := nth 1 tool_yaml "" in
  let tool_name := name (parent tool_yaml) in
  let* (outcome, w) := convert_tool_yaml_to_md tool_yaml (disk s) in
  let '(success, message) := outcome in
  let line := plugin_name ++ "/" ++ tool_name ++ ": " ++ message in
  if success : bool then
    Ok {| converted_tools := S (converted_tools s); converted_agents := converted_agents s;
          skipped := skipped s; errors := errors s;
          printed := (printed s ++ [("  ✓ " ++ line)%string])%list; disk := w |}
  else
    Ok {| converted_tools := converted_tools s; converted_agents := converted_agents s;
          skipped := skipped s; errors := S (errors s);
          printed := (printed s ++ [("  ❌ " ++ line)%string])%list; disk := w |}.

(** Lines 213-223: one turn of the agents loop. *)
Definition agent_turn (agent_yaml : path) (s : state) : result state :=
  let plugin_name := nth 1 agent_yaml "" in
  let agent_name := name (parent agent_yaml) in
  let* (outcome, w) := convert_agent_yaml_to_md agent_yaml (disk s) in
  let '(success, message) := outcome in
  let line := plugin_name ++ "/" ++ agent_name ++ ": " ++ message in
  if success : bool then
    Ok {| converted_tools := converted_tools s; converted_agents := S (converted_agents s);
          skipped := skipped s; errors := errors s;
          printed := (printed s ++ [("  ✓ " ++ line)%string])%list; disk := w |}
  else
    Ok {| converted_tools := converted_tools s; converted_agents := converted_agents s;
          skipped := skipped s; errors := S (errors s);
          printed := (printed s ++ [("  ❌ " ++ line)%string])%list; disk := w |}.

(** [main()]: the exit status with the final state, or the exception
    that ended the run. The globs are taken on the files present when
    each loop starts. *)
Definition main (w : world) : result (nat * state) :=
  let s := {| converted_tools := 0; converted_agents := 0; skipped := 0; errors := 0;
              printed := ["=== Converting YAML to Markdown Format ==="; ""];
              disk := w |} in
  let s := print "Converting tools..." s in
  let* s := for_each tool_turn (glob_plugins "tools" "tool.yaml" (disk s)) s in
  let s := print "" s in
  let s := print "Converting agents..." s in
  let* s := for_each agent_turn (glob_plugins "agents" "agent.yaml" (disk s)) s in
  let s := print "" s in
  let s := print "=== SUMMARY ===" s in
  let s := print ("Tools converted: " ++ show_nat (converted_tools s)) s in
  let s := print ("Agents converted: " ++ show_nat (converted_agents s)) s in
  let s := print ("Errors: " ++ show_nat (errors s)) s in
  let s := print "" s in
  if (0 <? errors s)%nat then
    Ok (1, print "⚠️  Some conversions had errors" s)
  else
    Ok (0, print "✅ All conversions completed successfully" s).

End Script.

End Convert.

(** ** embed-system-prompts.py *)

Module Embed.

(** Lines 30-33: what [implementation] is set to. *)
Definition embedded_implementation : yaml :=
  YMap [("type", YStr "embedded"); ("scripts_directory", YStr "scripts")].

(** Lines 27-33 on a record. *)
Definition embed_fields (td : dict) (skill_content : string) : dict :=
  let td := dict_set "system_prompt" (YStr skill_content) td in
  let td := dict_set "implementation" embedded_implementation td in
  td.

(** [k in obj] for any loaded object. *)
Definition py_in (k : string) (obj : yaml) : result bool :=
  match obj with
  | YMap d => Ok (dict_mem k d)
  | YStr s => Ok (Py.contains k s)
  | YList l => Ok (existsb (is_str k) l)
  | _ => Raise TypeError
  end.

(** Line 23: the test that leaves the record alone. The right operand
    of [and] is evaluated only when the left one holds. *)
Definition no_skill_directory (tool_data : yaml) : result bool :=
  let* has_implementation := py_in "implementation" tool_data in
  if has_implementation : bool then
    let* implementation := py_get tool_data "implementation" (YMap []) in
    Ok (negb (Py.contains "skill_directory" (py_str implementation)))
  else Ok false.

Section Script.

Variable safe_load : string -> option yaml.
Variable dump : yaml -> string.

(** Lines 11-39. Nothing is caught here. *)
Definition embed_system_prompt (tool_yaml_path skill_md_path : path) (w : world)
  : result ((bool * string) * world) :=
  let* skill_content := read_text skill_md_path w in
  let* tool_data := Convert.load_file safe_load tool_yaml_path w in
  let* skip := no_skill_directory tool_data in
  if skip : bool then Ok ((false, "No skill_directory reference"), w)
  else
    match tool_data with
    | YMap td =>
        let td := embed_fields td skill_content in
        let* w := open_write tool_yaml_path w in
        Ok ((true, "Updated"), fwrite tool_yaml_path (dump (YMap td)) w)
    | _ => Raise TypeError
    end.

Record state : Type := {
  updated : nat;
  skipped : nat;
  errors : nat;
  printed : list string;
  disk : world
}.

Definition print (line : string) (s : state) : state :=
  {| updated := updated s; skipped := skipped s; errors := errors s;
     printed := (printed s ++ [line])%list; disk := disk s |}.

Definition plugins : list string :=
  ["work"; "repo"; "file"; "codex"; "docs"; "logs"; "spec"; "status"].

(** Lines 58-85: one turn of the inner loop. The [try] catches whatever
    [embed_system_prompt] raises. *)
Definition tool_turn (plugin : string) (s : state) (tool_dir : path) : state :=
  if negb (is_dir tool_dir (disk s)) then s
  else
    let tool_name := name tool_dir in
    let tool_yaml := (tool_dir ++ ["tool.yaml"])%list in
    let skill_md := ["plugins"; plugin; "skills"; tool_name; "SKILL.md"] in
    if negb (exists_path tool_yaml (disk s)) then
      print ("  ⚠️  " ++ tool_name ++ ": No tool.yaml (skipping)") s
    else if negb (exists_path skill_md (disk s)) then
      print ("  ⚠️  " ++ tool_name ++ ": No SKILL.md in skills/ (skipping)")
        {| updated := updated s; skipped := S (skipped s); errors := errors s;
           printed := printed s; disk := disk s |}
    else
      match embed_system_prompt tool_yaml skill_md (disk s) with
      | Ok ((true, _), w) =>
          print ("  ✓ Embedded system_prompt for " ++ tool_name)
            {| updated := S (updated s); skipped := skipped s; errors := errors s;
               printed := printed s; disk := w |}
      | Ok ((false, message), w) =>
          print ("  ⏭️  " ++ tool_name ++ ": " ++ message ++ " (skipped)")
            {| updated := updated s; skipped := S (skipped s); errors := errors s;
               printed := printed s; disk := w |}
      | Raise e =>
          print ("  ❌ " ++ tool_name ++ ": Error - " ++ exn_text e)
            {| updated := updated s; skipped := skipped s; errors := S (errors s);
               printed := printed s; disk := disk s |}
      end.

(** Lines 51-87: one turn of the outer loop. *)
Definition plugin_turn (s : state) (plugin : string) : state :=
  let s := print ("Processing " ++ plugin ++ " plugin...") s in
  let tools_dir := ["plugins"; plugin; "tools"] in
  if negb (exists_path tools_dir (disk s)) then s
  else
    let s := fold_left (tool_turn plugin) (iterdir tools_dir (disk s)) s in
    print "" s.

(** [main()]: exit status and final state. *)
Definition main (w : world) : nat * state :=
  let s := {| updated := 0; skipped := 0; errors := 0;
              printed := ["=== PHASE 2: Embed System Prompts ==="; ""];
              disk := w |} in
  let s := fold_left plugin_turn plugins s in
  let s := print "=== SUMMARY ===" s in
  let s := print ("Tools updated: " ++ show_nat (updated s)) s in
  let s := print ("Tools skipped: " ++ show_nat (skipped s)) s in
  let s := print ("Errors: " ++ show_nat (errors s)) s in
  if (0 <? errors s)%nat then
    (1, print "⚠️  Some tools had errors" s)
  else
    (0, print "✅ All system prompts embedded" s).

End Script.

End Embed.

(** ** Comparing two states of the files *)

(** Everything but the file at [p] is the same in [w] and [w']. *)
Definition same_elsewhere (p : path) (w w' : world) : Prop :=
  (forall q, q <> p -> lookup_file q (files w') = lookup_file q (files w))
  /\ readonly w' = readonly w.

(** ** Sample documents

    PyYAML on the few documents the examples below use. [sample_load]
    gives what [yaml.safe_load] returns on each listed text and raises
    on any other; [sample_dump] writes mappings of plain one-line
    strings, nested or not, the way [yaml.dump] does in block style. *)

Definition sample_load (text : string) : option yaml :=
  if String.eqb text "" then Some YNull
  else if String.eqb text "name: x" then Some (YMap [("name", YStr "x")])
  else if String.eqb text "name: skill-name"
       then Some (YMap [("name", YStr "skill-name")])
  else if String.eqb text "description: Echoes input"
       then Some (YMap [("description", YStr "Echoes input")])
  else if String.eqb text ("name: helper" ++ LF ++ "type: agent" ++ LF ++ "version: 1.0.0")
       then Some (YMap [("name", YStr "helper"); ("type", YStr "agent");
                        ("version", YStr "1.0.0")])
  else if String.eqb text ("name: echo" ++ LF ++ "type: tool" ++ LF ++
                           "description: Echoes input" ++ LF ++ "version: 1.0.0")
       then Some (YMap [("name", YStr "echo"); ("type", YStr "tool");
                        ("description", YStr "Echoes input"); ("version", YStr "1.0.0")])
  else if String.eqb text ("name: fmt" ++ LF)
       then Some (YMap [("name", YStr "fmt")])
  else None.

Definition dump_scalar (v : yaml) : string :=
  match v with
  | YNull => "null"
  | YBool b => if b then "true" else "false"
  | YMap [] => "{}"
  | YList [] => "[]"
  | _ => py_str v
  end.

Fixpoint dump_block (indent : string) (v : yaml) : string :=
  match v with
  | YMap ((_ :: _) as d) =>
      String.concat ""
        (map (fun kv =>
                let '(k, x) := kv in
                match x with
                | YMap (_ :: _) =>
                    indent ++ k ++ ":" ++ LF ++ dump_block (indent ++ "  ") x
                | _ => indent ++ k ++ ": " ++ dump_scalar x ++ LF
                end) d)
  | _ => indent ++ dump_scalar v ++ LF
  end.

Definition sample_dump (v : yaml) : string := dump_block "" v.

(** The records and texts of the examples. *)
Definition noop_record : dict := [("name", YStr "noop")].


Definition echo_prompt : string :=
  "---" ++ LF ++ "description: Echoes input" ++ LF ++ "---" ++ LF ++ "Run the echo command.".

Definition echo_record : dict :=
  [("name", YStr "echo"); ("system_prompt", YStr echo_prompt)].

Definition named_skill_prompt : string :=
  "---" ++ LF ++ "name: skill-name" ++ LF ++ "---" ++ LF ++ "Body".

Definition unnamed_record : dict := [("system_prompt", YStr named_skill_prompt)].



Definition helper_frontmatter : dict :=
  [("name", YStr "helper"); ("type", YStr "agent"); ("version", YStr "1.0.0")].





(** A tool with every optional field, and a loader that knows the
    fields of its skill document. *)
Definition review_prompt : string :=
  "---" ++ LF ++ "model: haiku" ++ LF ++ "tags: docs" ++ LF ++ "---" ++ LF
  ++ "Review the change.".

Definition review_fields : dict := [("model", YStr "haiku"); ("tags", YStr "docs")].

Definition review_load (text : string) : option yaml :=
  if String.eqb text ("model: haiku" ++ LF ++ "tags: docs") then Some (YMap review_fields)
  else sample_load text.

Definition review_record : dict :=
  [ ("name", YStr "review"); ("author", YStr "core team");
    ("input_schema", YMap [("type", YStr "object")]);
    ("implementation", Embed.embedded_implementation);
    ("system_prompt", YStr review_prompt) ].

(** An agent as its [agent.yaml] holds it, the same agent with a number
    for system prompt, and a loader that knows both texts. *)
Definition helper_yaml : string :=
  "name: helper" ++ LF ++ "type: agent" ++ LF ++ "version: 1.0.0" ++ LF
  ++ "system_prompt: You help." ++ LF.

Definition numbered_yaml : string :=
  "name: helper" ++ LF ++ "system_prompt: 42" ++ LF.

Definition agent_load (text : string) : option yaml :=
  if String.eqb text helper_yaml
  then Some (YMap (helper_frontmatter ++ [("system_prompt", YStr "You help.")])%list)
  else if String.eqb text numbered_yaml
  then Some (YMap [("name", YStr "helper"); ("system_prompt", YInt 42)])
  else sample_load text.

Definition agents_world : world :=
  {| files :=
       [ (["plugins"; "core"; "agents"; "helper"; "agent.yaml"], helper_yaml);
         (["plugins"; "core"; "agents"; "numbered"; "agent.yaml"], numbered_yaml) ];
     readonly := [] |}.

(** The record [{name: fmt}] once embedded with the skill document
    [Formats.], and a loader that reads its dumped text back. *)
Definition fmt_embedded : dict := Embed.embed_fields [("name", YStr "fmt")] "Formats.".

Definition embed_load (text : string) : option yaml :=
  if String.eqb text (sample_dump (YMap fmt_embedded)) then Some (YMap fmt_embedded)
  else sample_load text.

(** Two tools of one plugin; the first [tool.yaml] is an empty file,
    which loads as [None]. *)
Definition empty_then_fmt (plugin : string) : list (path * string) :=
  [ (["plugins"; plugin; "tools"; "broken"; "tool.yaml"], "");
    (["plugins"; plugin; "tools"; "fmt"; "tool.yaml"], "name: fmt" ++ LF) ].

Definition convert_world : world :=
  {| files := empty_then_fmt "core"; readonly := [] |}.

(** The same two tools where the first [tool.yaml] does not parse. *)
Definition unparsable_world : world :=
  {| files :=
       [ (["plugins"; "core"; "tools"; "broken"; "tool.yaml"], "[unclosed");
         (["plugins"; "core"; "tools"; "fmt"; "tool.yaml"], "name: fmt" ++ LF) ];
     readonly := [] |}.

(** The same two tools, each with its skill document. *)
Definition embed_world : world :=
  {| files :=
       (empty_then_fmt "work"
        ++ [ (["plugins"; "work"; "skills"; "broken"; "SKILL.md"], "Broken.");
             (["plugins"; "work"; "skills"; "fmt"; "SKILL.md"], "Formats.") ])%list;
     readonly := [] |}.

(** The two tools where [tool.md] of the second cannot be written. *)
Definition locked_world : world :=
  {| files := empty_then_fmt "core";
     readonly := [["plugins"; "core"; "tools"; "fmt"; "tool.md"]] |}.

(** The state at the end of the conversion run on [unparsable_world]. *)
Definition unparsable_final : Convert.state :=
  Eval vm_compute in
    match Convert.main sample_load sample_dump unparsable_world with
    | Ok (_, s) => s
    | Raise _ =>
        {| Convert.converted_tools := 0; Convert.converted_agents := 0;
           Convert.skipped := 0; Convert.errors := 0; Convert.printed := [];
           Convert.disk := unparsable_world |}
    end.

(** ** The statements of the specification, as worded

    Each definition below follows the text of the specification, for
    comparison with the definitions above, which follow the scripts. *)





(** Section 4.4: the implementation field is present and its string form
    does not mention the marker. *)
Definition implementation_without_marker (td : dict) : bool :=
  match dict_get "implementation" td with
  | Some implementation => negb (Py.contains "skill_directory" (py_str implementation))
  | None => false
  end.

(** Section 4.2: the name is the record's, else the skill document's,
    else the directory's. *)
Definition name_as_specified (tool_name : string) (td sf : dict) : yaml :=
  match dict_get "name" td with
  | Some v => v
  | None =>
      match dict_get "name" sf with
      | Some v => v
      | None => YStr tool_name
      end
  end.

(** ** Strings: trimming and cutting *)















Lemma append_assoc (a b c : string) : (a ++ b) ++ c = a ++ b ++ c.
Proof. induction a as [|x a IH]; cbn [append]; [reflexivity | now rewrite IH]. Qed.

Lemma rstrip_cons (c : ascii) (s : string) :
  Py.is_space c = false -> Py.rstrip (String c s) = String c (Py.rstrip s).
Proof.
  intros H. cbn [Py.rstrip]. rewrite H. now destruct (Py.rstrip s).
Qed.





(** ** The splitter *)

Section Splitter.

Variable safe_load : string -> option yaml.
Variable dump : yaml -> string.







End Splitter.

(** ** Dictionaries *)

Lemma dict_get_set_same (k : string) (v : yaml) (d : dict) :
  dict_get k (dict_set k v d) = Some v.
Proof.
  induction d as [|[k' v'] d IH]; cbn [dict_set dict_get].
  - now rewrite String.eqb_refl.
  - destruct (String.eqb k' k) eqn:E; cbn [dict_get]; now rewrite E.
Qed.

Lemma dict_get_set_other (k k' : string) (v : yaml) (d : dict) :
  k <> k' -> dict_get k (dict_set k' v d) = dict_get k d.
Proof.
  intros Hne. induction d as [|[k0 v0] d IH]; cbn [dict_set dict_get].
  - destruct (String.eqb k' k) eqn:E; [|reflexivity].
    apply String.eqb_eq in E. congruence.
  - destruct (String.eqb k0 k') eqn:E; cbn [dict_get]; [|now rewrite IH].
    apply String.eqb_eq in E. subst k0.
    destruct (String.eqb k' k) eqn:E'; [|reflexivity].
    apply String.eqb_eq in E'. congruence.
Qed.

Lemma dict_get_remove_same (k : string) (d : dict) :
  dict_get k (dict_remove k d) = None.
Proof.
  induction d as [|[k0 v0] d IH]; [reflexivity|].
  unfold dict_remove in *. cbn [filter fst].
  destruct (String.eqb k0 k) eqn:E; cbn [negb dict_get]; [assumption|].
  now rewrite E.
Qed.

Lemma dict_get_remove_other (k k' : string) (d : dict) :
  k' <> k -> dict_get k' (dict_remove k d) = dict_get k' d.
Proof.
  intros Hne. induction d as [|[k0 v0] d IH]; [reflexivity|].
  unfold dict_remove in *. cbn [filter fst].
  destruct (String.eqb k0 k) eqn:E; cbn [negb dict_get].
  - apply String.eqb_eq in E. subst k0.
    destruct (String.eqb k k') eqn:E'; [|assumption].
    apply String.eqb_eq in E'. congruence.
  - now rewrite IH.
Qed.


Lemma dict_set_absent (k : string) (v : yaml) (d : dict) :
  dict_get k d = None -> dict_set k v d = (d ++ [(k, v)])%list.
Proof.
  induction d as [|[k0 v0] d IH]; [reflexivity|].
  cbn [dict_get dict_set app]. destruct (String.eqb k0 k); [discriminate|].
  intros H. now rewrite IH.
Qed.

Lemma dict_get_app (k : string) (a b : dict) :
  dict_get k (a ++ b)%list
  = match dict_get k a with Some v => Some v | None => dict_get k b end.
Proof.
  induction a as [|[k0 v0] a IH]; [reflexivity|].
  cbn [app dict_get]. now destruct (String.eqb k0 k).
Qed.


(** ** The tool converter *)

Section ToolConverter.

Variable safe_load : string -> option yaml.

Lemma truthy_nonempty_string (content : string) :
  content <> "" -> truthy (YStr content) = true.
Proof.
  intros H. cbn [truthy]. destruct (String.eqb content "") eqn:E; [|reflexivity].
  apply String.eqb_eq in E. contradiction.
Qed.

(** The path of a record with a system prompt, when nothing raises: the
    four leading fields, then the optional ones. *)
Lemma tool_document_with_prompt
  (tool_name : string) (td sf : dict) (content skill_body : string) :
  dict_get "system_prompt" td = Some (YStr content) ->
  content <> "" ->
  parse_embedded_skill_md safe_load content = (YMap sf, skill_body) ->
  (forall impl, dict_get "implementation" td = Some impl -> exists fields, impl = YMap fields) ->
  exists optional,
    tool_document safe_load tool_name (YMap td)
    = Ok (([ ("name", dict_get_default "name" (YStr tool_name) td);
             ("type", YStr "tool");
             ("description",
              dict_get_default "description" (dict_get_default "description" (YStr "") sf) td);
             ("version", dict_get_default "version" (YStr "1.0.0") td) ]
           ++ optional)%list,
          if String.eqb skill_body "" then no_content_body tool_name else skill_body).
Proof.
  intros Hsp Hne Hparse Himpl.
  assert (Hd : dict_get_default "system_prompt" (YStr "") td = YStr content)
    by (unfold dict_get_default; now rewrite Hsp).
  unfold tool_document. cbn [py_get bind].
  rewrite !Hd, (truthy_nonempty_string content Hne). cbn [negb].
  rewrite Hparse. cbn [py_get bind].
  unfold add_implementation, add_llm_model, dict_mem, dict_index.
  destruct (dict_get "tags" td) as [tags|];
    [|destruct (dict_get "tags" sf) as [tags|]];
    (destruct (dict_get "input_schema" td) as [schema|]);
    (destruct (dict_get "implementation" td) as [impl|] eqn:Ei;
     [destruct (Himpl impl eq_refl) as [fields ->]|]);
    (destruct (dict_get "model" sf) as [model|]);
    cbn;
    try (destruct (is_str "embedded" (dict_get_default "type" YNull fields)));
    cbn;
    destruct (String.eqb skill_body ""); cbn; eexists; reflexivity.
Qed.


Lemma no_content_body_text (dir_name : string) :
  no_content_body dir_name
  = "# " ++ Py.title (Py.replace "-" " " dir_name) ++ LF ++ LF ++ "(No content)".
Proof. unfold no_content_body, heading. now rewrite append_assoc. Qed.


(** The path of a record without system prompt. *)
Lemma tool_document_without_prompt (tool_name : string) (td : dict) (name : string) :
  truthy (dict_get_default "system_prompt" (YStr "") td) = false ->
  dict_get_default "name" (YStr tool_name) td = YStr name ->
  tool_document safe_load tool_name (YMap td)
  = Ok (dict_remove "system_prompt" td, utility_body name).
Proof.
  intros Hf Hn. unfold tool_document. cbn [py_get bind]. now rewrite Hf, Hn.
Qed.


(** C3 (as amended). For every tool record whose [system_prompt] is a
    non-empty text that splits into a mapping and a body, and whose
    [implementation], if any, is a mapping, the converter returns a
    frontmatter that starts with the keys name, type, description and
    version, in that order, where the name is the record's, else the
    directory's (the name in the skill document is not looked at), the
    type is ["tool"], the description is the record's, else the skill
    document's, else empty, and the version is the record's, else
    ["1.0.0"]. *)
Theorem tool_with_prompt_leading_fields
  (tool_name : string) (td sf : dict) (content skill_body : string) :
  dict_get "system_prompt" td = Some (YStr content) ->
  content <> "" ->
  parse_embedded_skill_md safe_load content = (YMap sf, skill_body) ->
  (forall impl, dict_get "implementation" td = Some impl -> exists fields, impl = YMap fields) ->
  exists frontmatter body,
    tool_document safe_load tool_name (YMap td) = Ok (frontmatter, body)
    /\ firstn 4 (dict_keys frontmatter) = ["name"; "type"; "description"; "version"]
    /\ dict_get "name" frontmatter
       = Some (match dict_get "name" td with
               | Some v => v
               | None => YStr tool_name
               end)
    /\ dict_get "type" frontmatter = Some (YStr "tool")
    /\ dict_get "description" frontmatter
       = Some (match dict_get "description" td with
               | Some v => v
               | None =>
                   match dict_get "description" sf with
                   | Some v => v
                   | None => YStr ""
                   end
               end)
    /\ dict_get "version" frontmatter
       = Some (match dict_get "version" td with
               | Some v => v
               | None => YStr "1.0.0"
               end).
Proof.
  intros Hsp Hne Hparse Himpl.
  destruct (tool_document_with_prompt tool_name td sf content skill_body
              Hsp Hne Hparse Himpl) as [optional H].
  eexists _, _. split; [exact H|].
  repeat split; reflexivity.
Qed.


End ToolConverter.

(** ** The agent converter *)

(** The result of the agent converter, in one piece. *)
Lemma agent_document_shape (agent_name : string) (td : dict) :
  agent_document agent_name (YMap td)
  = Ok ((dict_remove "system_prompt" td
         ++ (if dict_mem "type" td then [] else [("type", YStr "agent")])
         ++ (if dict_mem "version" td then [] else [("version", YStr "1.0.0")]))%list,
        if truthy (dict_get_default "system_prompt" (YStr "") td)
        then dict_get_default "system_prompt" (YStr "") td
        else YStr (no_content_body agent_name)).
Proof.
  set (rest := dict_remove "system_prompt" td).
  unfold agent_document. cbn [py_pop bind]. fold rest. unfold dict_mem.
  assert (Ht : dict_get "type" rest = dict_get "type" td)
    by (apply dict_get_remove_other; discriminate).
  assert (Hv : dict_get "version" rest = dict_get "version" td)
    by (apply dict_get_remove_other; discriminate).
  rewrite Ht. destruct (dict_get "type" td) eqn:Et; cbn [negb].
  - rewrite Hv. destruct (dict_get "version" td) eqn:Ev; cbn [negb app].
    + now rewrite app_nil_r.
    + now rewrite (dict_set_absent "version" _ rest) by congruence.
  - rewrite (dict_set_absent "type" _ rest) by congruence.
    rewrite dict_get_app, Hv. cbn [dict_get String.eqb Ascii.eqb Bool.eqb].
    destruct (dict_get "version" td) eqn:Ev; cbn [negb app]; [reflexivity|].
    rewrite dict_set_absent.
    + now rewrite <- app_assoc.
    + rewrite dict_get_app, Hv. reflexivity.
Qed.

(** C8. For every agent record the converter returns a frontmatter and
    a body such that: the frontmatter has no [system_prompt] key; it is
    the record without [system_prompt], field by field and in order,
    followed by type ["agent"] when the record has no type and then by
    version ["1.0.0"] when the record has no version; every other field
    of the record is in it with its value; the body is the record's
    [system_prompt] value when that is a non-empty text, and the
    heading made from the directory's name followed by [(No content)]
    when the field is absent or empty. *)
Theorem agent_document_contract (agent_name : string) (td : dict) :
  exists frontmatter body,
    agent_document agent_name (YMap td) = Ok (frontmatter, body)
    /\ dict_get "system_prompt" frontmatter = None
    /\ frontmatter
       = (dict_remove "system_prompt" td
          ++ (if dict_mem "type" td then [] else [("type", YStr "agent")])
          ++ (if dict_mem "version" td then [] else [("version", YStr "1.0.0")]))%list
    /\ (forall k v, k <> "system_prompt" ->
                    dict_get k td = Some v -> dict_get k frontmatter = Some v)
    /\ (forall s, dict_get "system_prompt" td = Some (YStr s) -> s <> "" -> body = YStr s)
    /\ (dict_get "system_prompt" td = None \/ dict_get "system_prompt" td = Some (YStr "") ->
        body = YStr ("# " ++ Py.title (Py.replace "-" " " agent_name) ++ LF ++ LF
                     ++ "(No content)"))
    /\ body = (if truthy (dict_get_default "system_prompt" (YStr "") td)
               then dict_get_default "system_prompt" (YStr "") td
               else YStr (no_content_body agent_name)).
Proof.
  eexists _, _. split; [apply agent_document_shape|].
  split.
  { rewrite !dict_get_app, dict_get_remove_same.
    destruct (dict_mem "type" td), (dict_mem "version" td); reflexivity. }
  split; [reflexivity|].
  split.
  { intros k v Hk Hg. rewrite dict_get_app.
    rewrite dict_get_remove_other by exact Hk. now rewrite Hg. }
  split.
  { intros s Hs Hne. unfold dict_get_default. rewrite Hs.
    now rewrite truthy_nonempty_string. }
  split; [|reflexivity].
  intros [H|H]; unfold dict_get_default; rewrite H; cbn [truthy String.eqb negb];
    now rewrite no_content_body_text.
Qed.

(** Every agent document has a type, a version and a body that is not
    the empty text. *)
Lemma agent_document_required_fields (agent_name : string) (td : dict) :
  exists frontmatter body,
    agent_document agent_name (YMap td) = Ok (frontmatter, body)
    /\ dict_mem "type" frontmatter = true
    /\ dict_mem "version" frontmatter = true
    /\ body <> YStr "".
Proof.
  eexists _, _. split; [apply agent_document_shape|]. unfold dict_mem.
  rewrite !dict_get_app, !dict_get_remove_other by discriminate.
  unfold dict_mem.
  split; [|split].
  - destruct (dict_get "type" td); [reflexivity|].
    now destruct (dict_get "version" td).
  - destruct (dict_get "version" td); [reflexivity|].
    now destruct (dict_get "type" td).
  - destruct (truthy _) eqn:E.
    + intros Heq. rewrite Heq in E. discriminate.
    + rewrite no_content_body_text. discriminate.
Qed.

(** So has the document of a tool with a system prompt. *)
Lemma tool_with_prompt_required_fields
  (safe_load : string -> option yaml)
  (tool_name : string) (td sf : dict) (content skill_body : string) :
  dict_get "system_prompt" td = Some (YStr content) ->
  content <> "" ->
  parse_embedded_skill_md safe_load content = (YMap sf, skill_body) ->
  (forall impl, dict_get "implementation" td = Some impl -> exists fields, impl = YMap fields) ->
  exists frontmatter body,
    tool_document safe_load tool_name (YMap td) = Ok (frontmatter, body)
    /\ dict_mem "type" frontmatter = true
    /\ dict_mem "version" frontmatter = true
    /\ body <> "".
Proof.
  intros Hsp Hne Hparse Himpl.
  destruct (tool_document_with_prompt safe_load tool_name td sf content skill_body
              Hsp Hne Hparse Himpl) as [optional H].
  eexists _, _. split; [exact H|]. split; [reflexivity|]. split; [reflexivity|].
  destruct (String.eqb skill_body "") eqn:E.
  - rewrite no_content_body_text. discriminate.
  - intros ->. discriminate.
Qed.

(** C2 (the code departs from it). The tool record [{name: noop}], which
    has no system prompt, is converted to a document whose frontmatter
    is [{name: noop}]: neither [type] nor [version] is in it. The body
    is the generated one. *)
Theorem tool_without_prompt_lacks_required_fields :
  tool_document sample_load "noop" (YMap noop_record)
  = Ok ([("name", YStr "noop")],
        "# Noop" ++ LF ++ LF ++ "Utility tool with no system prompt.")
  /\ dict_mem "type" [("name", YStr "noop")] = false
  /\ dict_mem "version" [("name", YStr "noop")] = false.
Proof. repeat split. Qed.

(** ** Files *)

Lemma path_eqb_refl (p : path) : path_eqb p p = true.
Proof.
  induction p as [|a p IH]; [reflexivity|].
  cbn [path_eqb]. now rewrite String.eqb_refl.
Qed.

Lemma lookup_store_same (p : path) (text : string) (fs : list (path * string)) :
  lookup_file p (store_file p text fs) = Some text.
Proof.
  induction fs as [|[q old] fs IH]; cbn [store_file lookup_file].
  - now rewrite path_eqb_refl.
  - destruct (path_eqb q p) eqn:E; cbn [lookup_file]; now rewrite E.
Qed.

(** What a file holds after it is opened for writing and written once. *)
Lemma read_after_write (p : path) (text : string) (w w1 : world) :
  open_write p w = Ok w1 -> read_text p (fwrite p text w1) = Ok text.
Proof.
  unfold open_write. destruct (existsb (path_eqb p) (readonly w)); [discriminate|].
  intros H. injection H as <-.
  unfold fwrite, read_text. cbn [files]. rewrite lookup_store_same.
  cbn [files]. now rewrite lookup_store_same.
Qed.

(** ** The embedding step *)

Section Embedding.

Variable safe_load : string -> option yaml.
Variable dump : yaml -> string.

(** The test of line 23 is the one the specification words. *)
Lemma no_skill_directory_record (td : dict) :
  Embed.no_skill_directory (YMap td) = Ok (implementation_without_marker td).
Proof.
  unfold Embed.no_skill_directory, implementation_without_marker.
  cbn [Embed.py_in bind py_get]. unfold dict_mem, dict_get_default.
  now destruct (dict_get "implementation" td).
Qed.


End Embedding.

(** ** The batch drivers *)

(** C9 (the code departs from it). With two tools under one plugin, the
    first of which has an empty [tool.yaml], the conversion run ends on
    the [AttributeError] raised for the first tool: nothing catches it,
    no summary is printed and the second tool is not converted. *)
Theorem convert_main_aborts_on_empty_record :
  Convert.main sample_load sample_dump convert_world = Raise AttributeError.
Proof. vm_compute. reflexivity. Qed.

(** A [tool.yaml] that does not parse is counted as an error and the run
    goes on to the next tool. *)
Lemma convert_main_counts_unparsable_record :
  match Convert.main sample_load sample_dump unparsable_world with
  | Ok (status, s) =>
      status = 1 /\ Convert.errors s = 1 /\ Convert.converted_tools s = 1
  | Raise _ => False
  end.
Proof. vm_compute. repeat split. Qed.

(** The embedding run on the same two tools: the exception raised for
    the empty [tool.yaml] is caught and counted, and the second tool is
    updated. *)
Lemma embed_main_counts_empty_record :
  let (status, s) := Embed.main sample_load sample_dump embed_world in
  status = 1 /\ Embed.errors s = 1 /\ Embed.updated s = 1.
Proof. vm_compute. repeat split. Qed.

(** ** Examples *)



(** C3, counterexample. A record without name whose skill document
    names itself [skill-name], in directory [dir-name]: the name written
    is [dir-name], not the skill document's. *)
Lemma skill_name_is_not_used :
  parse_embedded_skill_md sample_load named_skill_prompt
  = (YMap [("name", YStr "skill-name")], "Body")
  /\ name_as_specified "dir-name" unnamed_record [("name", YStr "skill-name")]
     = YStr "skill-name"
  /\ exists frontmatter body,
       tool_document sample_load "dir-name" (YMap unnamed_record) = Ok (frontmatter, body)
       /\ dict_get "name" frontmatter = Some (YStr "dir-name")
       /\ dict_get "name" frontmatter
          <> Some (name_as_specified "dir-name" unnamed_record [("name", YStr "skill-name")]).
Proof.
  split; [reflexivity|]. split; [reflexivity|].
  eexists _, _. split; [reflexivity|]. split; [reflexivity|]. discriminate.
Qed.

Lemma tool_with_prompt_leading_fields_witness :
  exists frontmatter body,
    tool_document sample_load "echo" (YMap echo_record) = Ok (frontmatter, body)
    /\ firstn 4 (dict_keys frontmatter) = ["name"; "type"; "description"; "version"]
    /\ dict_get "name" frontmatter = Some (YStr "echo")
    /\ dict_get "type" frontmatter = Some (YStr "tool")
    /\ dict_get "description" frontmatter = Some (YStr "Echoes input")
    /\ dict_get "version" frontmatter = Some (YStr "1.0.0").
Proof.
  apply (tool_with_prompt_leading_fields sample_load "echo" echo_record
           [("description", YStr "Echoes input")] echo_prompt "Run the echo command.").
  - reflexivity.
  - discriminate.
  - reflexivity.
  - intros impl H. discriminate H.
Defined.









(** ** The tool converter: the optional fields *)

Section ToolFields.

Variable safe_load : string -> option yaml.

Lemma is_str_get (s : string) (d : dict) (k : string) :
  is_str s (dict_get_default k YNull d) = true <-> dict_get k d = Some (YStr s).
Proof.
  unfold dict_get_default. destruct (dict_get k d) as [v|]; cbn [is_str].
  - destruct v; cbn [is_str]; try (split; [discriminate | intros H; discriminate H]).
    rewrite String.eqb_eq. split; [now intros -> | intros H; now injection H].
  - split; discriminate.
Qed.

Lemma dict_keys_set_present (k : string) (v : yaml) (d : dict) :
  dict_get k d <> None -> dict_keys (dict_set k v d) = dict_keys d.
Proof.
  unfold dict_keys. induction d as [|[k0 v0] d IH]; cbn [dict_get dict_set map fst].
  - congruence.
  - destruct (String.eqb k0 k); cbn [map fst]; [reflexivity|].
    intros H. now rewrite IH.
Qed.

(** The whole frontmatter of a record with a system prompt: the four
    leading fields, then tags, parameters, implementation and llm, each
    when it applies. *)
Lemma tool_document_prompt_shape
  (tool_name : string) (td sf : dict) (content skill_body : string) :
  dict_get "system_prompt" td = Some (YStr content) ->
  content <> "" ->
  parse_embedded_skill_md safe_load content = (YMap sf, skill_body) ->
  (forall impl, dict_get "implementation" td = Some impl -> exists fields, impl = YMap fields) ->
  tool_document safe_load tool_name (YMap td)
  = Ok (([ ("name", dict_get_default "name" (YStr tool_name) td);
           ("type", YStr "tool");
           ("description",
            dict_get_default "description" (dict_get_default "description" (YStr "") sf) td);
           ("version", dict_get_default "version" (YStr "1.0.0") td) ]
         ++ match dict_get "tags" td with
            | Some tags => [("tags", tags)]
            | None =>
                match dict_get "tags" sf with
                | Some tags => [("tags", tags)]
                | None => []
                end
            end
         ++ match dict_get "input_schema" td with
            | Some schema => [("parameters", schema)]
            | None => []
            end
         ++ match dict_get "implementation" td with
            | Some (YMap fields) =>
                [("implementation",
                  YMap (if is_str "embedded" (dict_get_default "type" YNull fields)
                        then dict_set "type" (YStr "bash") fields
                        else fields))]
            | _ => []
            end
         ++ match dict_get "model" sf with
            | Some model => [("llm", YMap [("model", model)])]
            | None => []
            end)%list,
        if String.eqb skill_body "" then no_content_body tool_name else skill_body).
Proof.
  intros Hsp Hne Hparse Himpl.
  assert (Hd : dict_get_default "system_prompt" (YStr "") td = YStr content)
    by (unfold dict_get_default; now rewrite Hsp).
  unfold tool_document. cbn [py_get bind].
  rewrite !Hd, (truthy_nonempty_string content Hne). cbn [negb].
  rewrite Hparse. cbn [py_get bind].
  unfold add_implementation, add_llm_model, dict_mem, dict_index.
  destruct (dict_get "tags" td) as [tags|];
    [|destruct (dict_get "tags" sf) as [tags|]];
    (destruct (dict_get "input_schema" td) as [schema|]);
    (destruct (dict_get "implementation" td) as [impl|] eqn:Ei;
     [destruct (Himpl impl eq_refl) as [fields ->]|]);
    (destruct (dict_get "model" sf) as [model|]);
    cbn;
    try (destruct (is_str "embedded" (dict_get_default "type" YNull fields)));
    cbn;
    destruct (String.eqb skill_body ""); reflexivity.
Qed.

(** Looking a key up in the frontmatter of the shape above. *)
Ltac frontmatter_lookup td sf :=
  rewrite ?dict_get_app;
  destruct (dict_get "tags" td); [|destruct (dict_get "tags" sf)];
  destruct (dict_get "input_schema" td);
  destruct (dict_get "model" sf);
  cbn; try reflexivity.

(** X1. Lines 105-110. The implementation of a record with a system
    prompt is carried over with the same keys in the same order and the
    same values, except that a type equal to ["embedded"] becomes
    ["bash"]; with any other type, or none, it is carried over as it
    is. *)
Theorem tool_implementation_normalised
  (tool_name : string) (td sf fields : dict) (content skill_body : string) :
  dict_get "system_prompt" td = Some (YStr content) ->
  content <> "" ->
  parse_embedded_skill_md safe_load content = (YMap sf, skill_body) ->
  dict_get "implementation" td = Some (YMap fields) ->
  exists frontmatter body fields',
    tool_document safe_load tool_name (YMap td) = Ok (frontmatter, body)
    /\ dict_get "implementation" frontmatter = Some (YMap fields')
    /\ dict_keys fields' = dict_keys fields
    /\ (forall k, k <> "type" -> dict_get k fields' = dict_get k fields)
    /\ (dict_get "type" fields = Some (YStr "embedded") ->
        dict_get "type" fields' = Some (YStr "bash"))
    /\ (dict_get "type" fields <> Some (YStr "embedded") -> fields' = fields).
Proof.
  intros Hsp Hne Hparse Hi.
  assert (Himpl : forall impl, dict_get "implementation" td = Some impl ->
                               exists f, impl = YMap f).
  { intros impl H. rewrite Hi in H. injection H as <-. now exists fields. }
  eexists _, _, _. split.
  { apply (tool_document_prompt_shape tool_name td sf content skill_body
             Hsp Hne Hparse Himpl). }
  rewrite Hi. split; [frontmatter_lookup td sf|].
  pose proof (is_str_get "embedded" fields "type") as Hes.
  destruct (is_str "embedded" (dict_get_default "type" YNull fields)).
  - assert (Ht : dict_get "type" fields = Some (YStr "embedded")) by now apply Hes.
    split; [apply dict_keys_set_present; congruence|].
    split; [intros k Hk; now apply dict_get_set_other|].
    split; [intros _; apply dict_get_set_same|]. intros H. contradiction.
  - split; [reflexivity|]. split; [reflexivity|].
    split; [|reflexivity]. intros H. apply Hes in H. discriminate.
Qed.



(** X4. Lines 113-116. When the skill document names a model, the
    frontmatter gets an [llm] mapping that holds that model and nothing
    else; when it names none, no [llm] key is written (an [llm] field of
    the record is not carried over). *)
Theorem tool_llm_model
  (tool_name : string) (td sf : dict) (content skill_body : string) :
  dict_get "system_prompt" td = Some (YStr content) ->
  content <> "" ->
  parse_embedded_skill_md safe_load content = (YMap sf, skill_body) ->
  (forall impl, dict_get "implementation" td = Some impl -> exists fields, impl = YMap fields) ->
  exists frontmatter body,
    tool_document safe_load tool_name (YMap td) = Ok (frontmatter, body)
    /\ dict_get "llm" frontmatter
       = match dict_get "model" sf with
         | Some model => Some (YMap [("model", model)])
         | None => None
         end.
Proof.
  intros Hsp Hne Hparse Himpl. eexists _, _. split.
  { apply (tool_document_prompt_shape tool_name td sf content skill_body
             Hsp Hne Hparse Himpl). }
  frontmatter_lookup td sf;
    (destruct (dict_get "implementation" td) as [[]|]); reflexivity.
Qed.

(** X5. Lines 87-119. The frontmatter of a record with a system prompt
    has no key outside name, type, description, version, tags,
    parameters, implementation and llm: the system prompt itself and
    any other field of the record are left out. The body is the body of
    the skill document whenever that is not empty. *)
Theorem tool_frontmatter_keys
  (tool_name : string) (td sf : dict) (content skill_body : string) :
  dict_get "system_prompt" td = Some (YStr content) ->
  content <> "" ->
  parse_embedded_skill_md safe_load content = (YMap sf, skill_body) ->
  (forall impl, dict_get "implementation" td = Some impl -> exists fields, impl = YMap fields) ->
  exists frontmatter body,
    tool_document safe_load tool_name (YMap td) = Ok (frontmatter, body)
    /\ (forall k, In k (dict_keys frontmatter) ->
                  In k ["name"; "type"; "description"; "version";
                        "tags"; "parameters"; "implementation"; "llm"])
    /\ dict_get "system_prompt" frontmatter = None
    /\ (skill_body <> "" -> body = skill_body).
Proof.
  intros Hsp Hne Hparse Himpl. eexists _, _. split.
  { apply (tool_document_prompt_shape tool_name td sf content skill_body
             Hsp Hne Hparse Himpl). }
  split; [|split].
  - intros k. unfold dict_keys. rewrite !map_app.
    destruct (dict_get "tags" td); [|destruct (dict_get "tags" sf)];
      destruct (dict_get "input_schema" td);
      (destruct (dict_get "implementation" td) as [[]|]);
      destruct (dict_get "model" sf);
      cbn; intuition.
  - frontmatter_lookup td sf;
      (destruct (dict_get "implementation" td) as [[]|]); reflexivity.
  - intros H. destruct (String.eqb skill_body "") eqn:E; [|reflexivity].
    apply String.eqb_eq in E. contradiction.
Qed.

End ToolFields.

(** ** The tool converter: what makes it raise *)

Section ToolErrors.

Variable safe_load : string -> option yaml.

(** The steps after the split, for a skill frontmatter that is a
    mapping: they raise exactly when the implementation is there and is
    not a mapping, and then it is [AttributeError]. *)
Lemma tool_document_after_split
  (tool_name : string) (td sf : dict) (content skill_body : string) :
  dict_get "system_prompt" td = Some (YStr content) ->
  content <> "" ->
  parse_embedded_skill_md safe_load content = (YMap sf, skill_body) ->
  match dict_get "implementation" td with
  | Some (YMap _) | None => exists r, tool_document safe_load tool_name (YMap td) = Ok r
  | Some _ => tool_document safe_load tool_name (YMap td) = Raise AttributeError
  end.
Proof.
  intros Hsp Hne Hparse.
  assert (Hd : dict_get_default "system_prompt" (YStr "") td = YStr content)
    by (unfold dict_get_default; now rewrite Hsp).
  unfold tool_document. cbn [py_get bind].
  rewrite !Hd, (truthy_nonempty_string content Hne). cbn [negb].
  rewrite Hparse. cbn [py_get bind].
  unfold add_implementation, add_llm_model, dict_mem, dict_index.
  destruct (dict_get "tags" td) as [tags|];
    [|destruct (dict_get "tags" sf) as [tags|]];
    (destruct (dict_get "input_schema" td) as [schema|]);
    (destruct (dict_get "implementation" td) as [[| | | | |fields]|]);
    (destruct (dict_get "model" sf) as [model|]);
    cbn; try reflexivity;
    try (destruct (is_str "embedded" (dict_get_default "type" YNull fields)); cbn);
    eexists; reflexivity.
Qed.

(** The split of a record's system prompt when the prompt is not a
    non-empty text or the skill frontmatter is not a mapping. *)
Lemma tool_document_bad_prompt (tool_name : string) (td : dict) :
  truthy (dict_get_default "system_prompt" (YStr "") td) = true ->
  (forall content sf skill_body,
      dict_get_default "system_prompt" (YStr "") td = YStr content ->
      parse_embedded_skill_md safe_load content <> (YMap sf, skill_body)) ->
  tool_document safe_load tool_name (YMap td) = Raise AttributeError.
Proof.
  intros Ht Hbad. unfold tool_document. cbn [py_get bind]. rewrite Ht. cbn [negb].
  destruct (dict_get_default "system_prompt" (YStr "") td) as [| | |content| |] eqn:E;
    try reflexivity.
  destruct (parse_embedded_skill_md safe_load content) as [fm skill_body] eqn:Ep.
  destruct fm as [| | | | |sf]; try reflexivity.
  exfalso. now apply (Hbad content sf skill_body).
Qed.



(** X7. Lines 75-119. The conversion of a loaded record goes through
    exactly in two cases: the system prompt is absent or falsy and the
    name, when there is one, is a text; or the system prompt is a
    non-empty text whose split gives a mapping for frontmatter, and the
    implementation, when there is one, is a mapping. Any other record
    raises. *)
Theorem tool_document_succeeds_iff (tool_name : string) (td : dict) :
  (exists r, tool_document safe_load tool_name (YMap td) = Ok r)
  <-> ((truthy (dict_get_default "system_prompt" (YStr "") td) = false
        /\ exists name, dict_get_default "name" (YStr tool_name) td = YStr name)
       \/ (exists content sf skill_body,
              dict_get "system_prompt" td = Some (YStr content)
              /\ content <> ""
              /\ parse_embedded_skill_md safe_load content = (YMap sf, skill_body)
              /\ forall impl, dict_get "implementation" td = Some impl ->
                              exists fields, impl = YMap fields)).
Proof.
  split.
  - intros [r Hr].
    destruct (truthy (dict_get_default "system_prompt" (YStr "") td)) eqn:Ht.
    + right.
      destruct (dict_get_default "system_prompt" (YStr "") td) as [| | |content| |] eqn:E;
        try (rewrite (tool_document_bad_prompt tool_name td) in Hr;
             [discriminate Hr | now rewrite E
             | intros ? ? ? Hc; rewrite E in Hc; discriminate Hc]).
      destruct (parse_embedded_skill_md safe_load content) as [fm skill_body] eqn:Ep.
      destruct fm as [| | | | |sf];
        try (rewrite (tool_document_bad_prompt tool_name td) in Hr;
             [discriminate Hr | now rewrite E
             | intros ? ? ? Hc; rewrite E in Hc; injection Hc as <-;
               rewrite Ep; discriminate]).
      assert (Hsp : dict_get "system_prompt" td = Some (YStr content)).
      { unfold dict_get_default in E. destruct (dict_get "system_prompt" td) as [v|].
        - now subst v.
        - injection E as <-. discriminate Ht. }
      assert (Hne : content <> "") by (intros ->; discriminate Ht).
      exists content, sf, skill_body. repeat split; try assumption.
      pose proof (tool_document_after_split tool_name td sf content skill_body
                    Hsp Hne Ep) as H.
      intros impl Hi. rewrite Hi in H.
      destruct impl as [| | | | |fields];
        try (rewrite H in Hr; discriminate Hr). now exists fields.
    + left. split; [reflexivity|].
      unfold tool_document in Hr. cbn [py_get bind] in Hr. rewrite Ht in Hr.
      cbn [negb] in Hr.
      destruct (dict_get_default "name" (YStr tool_name) td) as [| | |name| |];
        try discriminate Hr. now exists name.
  - intros [[Hf [name Hn]]|(content & sf & skill_body & Hsp & Hne & Hp & Himpl)].
    + eexists. now apply tool_document_without_prompt with (name := name).
    + destruct (tool_document_with_prompt safe_load tool_name td sf content skill_body
                  Hsp Hne Hp Himpl) as [optional H].
      eexists. exact H.
Qed.

End ToolErrors.

(** ** Files: writing *)

Lemma path_eqb_eq (p q : path) : path_eqb p q = true <-> p = q.
Proof.
  revert q. induction p as [|a p IH]; intros [|b q]; cbn [path_eqb];
    try (split; [discriminate|intros H; discriminate H]); [now split|].
  rewrite andb_true_iff, String.eqb_eq, IH.
  split; [intros [-> ->]; reflexivity | intros H; injection H; auto].
Qed.

Lemma path_eqb_neq (p q : path) : p <> q -> path_eqb p q = false.
Proof.
  intros H. destruct (path_eqb p q) eqn:E; [|reflexivity].
  apply path_eqb_eq in E. contradiction.
Qed.

Lemma lookup_store_other (p q : path) (text : string) (fs : list (path * string)) :
  q <> p -> lookup_file q (store_file p text fs) = lookup_file q fs.
Proof.
  intros Hne. induction fs as [|[r old] fs IH]; cbn [store_file lookup_file].
  - rewrite path_eqb_neq by congruence. reflexivity.
  - destruct (path_eqb r p) eqn:E; cbn [lookup_file]; [|now rewrite IH].
    apply path_eqb_eq in E. subst r.
    rewrite path_eqb_neq by congruence. reflexivity.
Qed.

Lemma same_elsewhere_refl (p : path) (w : world) : same_elsewhere p w w.
Proof. now split. Qed.

Lemma same_elsewhere_trans (p : path) (w1 w2 w3 : world) :
  same_elsewhere p w1 w2 -> same_elsewhere p w2 w3 -> same_elsewhere p w1 w3.
Proof.
  intros [H1 R1] [H2 R2]. split; [|congruence].
  intros q Hq. now rewrite H2, H1.
Qed.

Lemma open_write_effect (p : path) (w w1 : world) :
  open_write p w = Ok w1 ->
  lookup_file p (files w1) = Some "" /\ same_elsewhere p w w1.
Proof.
  unfold open_write. destruct (existsb (path_eqb p) (readonly w)); [discriminate|].
  intros H. injection H as <-. cbn [files readonly].
  split; [apply lookup_store_same|]. split; [|reflexivity].
  intros q Hq. now apply lookup_store_other.
Qed.

Lemma fwrite_effect (p : path) (old text : string) (w : world) :
  lookup_file p (files w) = Some old ->
  lookup_file p (files (fwrite p text w)) = Some (old ++ text)
  /\ same_elsewhere p w (fwrite p text w).
Proof.
  intros H. unfold fwrite. rewrite H. cbn [files readonly].
  split; [apply lookup_store_same|]. split; [|reflexivity].
  intros q Hq. now apply lookup_store_other.
Qed.

Lemma same_elsewhere_fwrite (p : path) (text : string) (w : world) :
  same_elsewhere p w (fwrite p text w).
Proof.
  unfold fwrite. destruct (lookup_file p (files w)) eqn:E;
    [|apply same_elsewhere_refl].
  split; [|reflexivity]. intros q Hq. cbn [files]. now apply lookup_store_other.
Qed.

Section Writing.

Variable safe_load : string -> option yaml.
Variable dump : yaml -> string.

(** The [with] block on a text body: the file holds the rendered
    document. *)
Lemma write_md_text (md_path : path) (frontmatter : dict) (text : string) (w w1 : world) :
  open_write md_path w = Ok w1 ->
  exists w',
    Convert.write_md dump md_path frontmatter (YStr text) w = (w', None)
    /\ lookup_file md_path (files w') = Some (render dump frontmatter text)
    /\ same_elsewhere md_path w w'.
Proof.
  intros Ho. unfold Convert.write_md. rewrite Ho.
  destruct (open_write_effect md_path w w1 Ho) as [H0 S0].
  destruct (fwrite_effect md_path _ ("---" ++ LF) w1 H0) as [H1 S1].
  destruct (fwrite_effect md_path _ (dump (YMap frontmatter)) _ H1) as [H2 S2].
  destruct (fwrite_effect md_path _ ("---" ++ LF ++ LF) _ H2) as [H3 S3].
  destruct (fwrite_effect md_path _ text _ H3) as [H4 S4].
  destruct (fwrite_effect md_path _ LF _ H4) as [H5 S5].
  eexists. split; [reflexivity|]. split.
  - rewrite H5. f_equal. unfold render. now rewrite !append_assoc.
  - eapply same_elsewhere_trans; [exact S0|].
    eapply same_elsewhere_trans; [exact S1|].
    eapply same_elsewhere_trans; [exact S2|].
    eapply same_elsewhere_trans; [exact S3|].
    eapply same_elsewhere_trans; [exact S4|exact S5].
Qed.

(** The [with] block on a body that is not a text: [f.write] raises
    after the frontmatter and the closing delimiter were written. *)
Lemma write_md_not_text (md_path : path) (frontmatter : dict) (body : yaml) (w w1 : world) :
  open_write md_path w = Ok w1 ->
  (forall text, body <> YStr text) ->
  exists w',
    Convert.write_md dump md_path frontmatter body w = (w', Some TypeError)
    /\ lookup_file md_path (files w')
       = Some ("---" ++ LF ++ dump (YMap frontmatter) ++ "---" ++ LF ++ LF)
    /\ same_elsewhere md_path w w'.
Proof.
  intros Ho Hb. unfold Convert.write_md. rewrite Ho.
  destruct (open_write_effect md_path w w1 Ho) as [H0 S0].
  destruct (fwrite_effect md_path _ ("---" ++ LF) w1 H0) as [H1 S1].
  destruct (fwrite_effect md_path _ (dump (YMap frontmatter)) _ H1) as [H2 S2].
  destruct (fwrite_effect md_path _ ("---" ++ LF ++ LF) _ H2) as [H3 S3].
  destruct body as [| | |text| |]; try (now destruct (Hb text));
    (eexists; split; [reflexivity|]; split;
     [rewrite H3; f_equal; now rewrite !append_assoc
     |eapply same_elsewhere_trans; [exact S0|];
      eapply same_elsewhere_trans; [exact S1|];
      eapply same_elsewhere_trans; [exact S2|exact S3]]).
Qed.

Lemma open_write_writable (p : path) (w : world) :
  existsb (path_eqb p) (readonly w) = false -> exists w1, open_write p w = Ok w1.
Proof. intros H. unfold open_write. rewrite H. eexists. reflexivity. Qed.

Lemma name_of_child (dir : path) (file : string) : name (dir ++ [file])%list = file.
Proof. unfold name. apply last_last. Qed.


(** X8. Lines 63-130. When [tool.yaml] loads, the record converts and
    [tool.md] can be opened for writing, the converter reports success
    with the message [Converted to tool.md], and [tool.md], in the
    directory of [tool.yaml], holds the delimiter line, the dumped
    frontmatter, the delimiter line, an empty line, the body and a
    final line feed, whatever it held before. *)
Theorem convert_tool_writes_document
  (tool_yaml_path : path) (w : world) (tool_data : yaml)
  (frontmatter : dict) (body : string) :
  Convert.load_file safe_load tool_yaml_path w = Ok tool_data ->
  tool_document safe_load (name (parent tool_yaml_path)) tool_data = Ok (frontmatter, body) ->
  existsb (path_eqb (parent tool_yaml_path ++ ["tool.md"])%list) (readonly w) = false ->
  exists w',
    Convert.convert_tool_yaml_to_md safe_load dump tool_yaml_path w
    = Ok ((true, "Converted to tool.md"), w')
    /\ read_text (parent tool_yaml_path ++ ["tool.md"])%list w'
       = Ok ("---" ++ LF ++ dump (YMap frontmatter) ++ "---" ++ LF ++ LF ++ body ++ LF).
Proof.
  intros Hl Hd Hw.
  destruct (open_write_writable _ _ Hw) as [w1 Ho].
  destruct (write_md_text _ frontmatter body w w1 Ho) as (w' & Hwr & Hf & _).
  exists w'. unfold Convert.convert_tool_yaml_to_md.
  rewrite Hl, Hd. cbn [bind]. rewrite Hwr, name_of_child.
  split; [reflexivity|]. unfold read_text. now rewrite Hf.
Qed.

(** X9. Lines 144-179. When [agent.yaml] loads as a record whose system
    prompt is a non-empty text and [agent.md] can be opened for
    writing, the converter reports success with the message [Converted
    to agent.md], and [agent.md] holds the dumped frontmatter between
    two delimiter lines, an empty line, the system prompt as it is and
    a final line feed. *)
Theorem convert_agent_writes_document
  (agent_yaml_path : path) (w : world) (td : dict) (prompt : string) :
  Convert.load_file safe_load agent_yaml_path w = Ok (YMap td) ->
  dict_get "system_prompt" td = Some (YStr prompt) ->
  prompt <> "" ->
  existsb (path_eqb (parent agent_yaml_path ++ ["agent.md"])%list) (readonly w) = false ->
  exists frontmatter w',
    agent_document (name (parent agent_yaml_path)) (YMap td)
    = Ok (frontmatter, YStr prompt)
    /\ Convert.convert_agent_yaml_to_md safe_load dump agent_yaml_path w
       = Ok ((true, "Converted to agent.md"), w')
    /\ read_text (parent agent_yaml_path ++ ["agent.md"])%list w'
       = Ok ("---" ++ LF ++ dump (YMap frontmatter) ++ "---" ++ LF ++ LF ++ prompt ++ LF).
Proof.
  intros Hl Hp Hne Hw.
  pose proof (agent_document_shape (name (parent agent_yaml_path)) td) as Hd.
  unfold dict_get_default in Hd. rewrite Hp, (truthy_nonempty_string prompt Hne) in Hd.
  destruct (open_write_writable _ _ Hw) as [w1 Ho].
  match type of Hd with
  | _ = Ok (?fm, _) =>
      exists fm; destruct (write_md_text _ fm prompt w w1 Ho) as (w' & Hwr & Hf & _)
  end.
  exists w'. split; [exact Hd|].
  unfold Convert.convert_agent_yaml_to_md.
  rewrite Hl, Hd. cbn [bind]. rewrite Hwr, name_of_child.
  split; [reflexivity|]. unfold read_text. now rewrite Hf.
Qed.

(** X10. Lines 156-181. When the system prompt of an agent record is
    truthy and not a text (a number, a list, a mapping), the converter
    reports the failure [Failed to write MD] for the [TypeError] of
    [f.write], and [agent.md] is left with the frontmatter, the closing
    delimiter and the empty line, without any body. *)
Theorem convert_agent_non_text_prompt
  (agent_yaml_path : path) (w : world) (td : dict) (prompt : yaml) :
  Convert.load_file safe_load agent_yaml_path w = Ok (YMap td) ->
  dict_get "system_prompt" td = Some prompt ->
  truthy prompt = true ->
  (forall text, prompt <> YStr text) ->
  existsb (path_eqb (parent agent_yaml_path ++ ["agent.md"])%list) (readonly w) = false ->
  exists frontmatter w',
    agent_document (name (parent agent_yaml_path)) (YMap td) = Ok (frontmatter, prompt)
    /\ Convert.convert_agent_yaml_to_md safe_load dump agent_yaml_path w
       = Ok ((false, "Failed to write MD: TypeError"), w')
    /\ read_text (parent agent_yaml_path ++ ["agent.md"])%list w'
       = Ok ("---" ++ LF ++ dump (YMap frontmatter) ++ "---" ++ LF ++ LF).
Proof.
  intros Hl Hp Ht Hnt Hw.
  pose proof (agent_document_shape (name (parent agent_yaml_path)) td) as Hd.
  unfold dict_get_default in Hd. rewrite Hp, Ht in Hd.
  destruct (open_write_writable _ _ Hw) as [w1 Ho].
  match type of Hd with
  | _ = Ok (?fm, _) =>
      exists fm;
      destruct (write_md_not_text _ fm prompt w w1 Ho Hnt) as (w' & Hwr & Hf & _)
  end.
  exists w'. split; [exact Hd|].
  unfold Convert.convert_agent_yaml_to_md.
  rewrite Hl, Hd. cbn [bind]. rewrite Hwr.
  split; [reflexivity|]. unfold read_text. now rewrite Hf.
Qed.


(** X12. Lines 122-132 and 171-181. When the record converts and the
    output file cannot be opened for writing, each converter reports
    the failure [Failed to write MD] without raising and the files are
    as before. *)
Theorem read_only_target_is_reported (p : path) (w : world) (data : yaml) :
  Convert.load_file safe_load p w = Ok data ->
  (forall doc,
      tool_document safe_load (name (parent p)) data = Ok doc ->
      existsb (path_eqb (parent p ++ ["tool.md"])%list) (readonly w) = true ->
      Convert.convert_tool_yaml_to_md safe_load dump p w
      = Ok ((false, "Failed to write MD: OSError"), w))
  /\ (forall doc,
        agent_document (name (parent p)) data = Ok doc ->
        existsb (path_eqb (parent p ++ ["agent.md"])%list) (readonly w) = true ->
        Convert.convert_agent_yaml_to_md safe_load dump p w
        = Ok ((false, "Failed to write MD: OSError"), w)).
Proof.
  intros Hl. split; intros [frontmatter body] Hd Hr.
  - unfold Convert.convert_tool_yaml_to_md. rewrite Hl, Hd. cbn [bind].
    unfold Convert.write_md, open_write. now rewrite Hr.
  - unfold Convert.convert_agent_yaml_to_md. rewrite Hl, Hd. cbn [bind].
    unfold Convert.write_md, open_write. now rewrite Hr.
Qed.

Lemma write_md_frame (md_path : path) (frontmatter : dict) (body : yaml) (w : world) :
  same_elsewhere md_path w (fst (Convert.write_md dump md_path frontmatter body w)).
Proof.
  unfold Convert.write_md.
  destruct (open_write md_path w) as [w1|e] eqn:Ho; [|apply same_elsewhere_refl].
  destruct (open_write_effect md_path w w1 Ho) as [_ S0].
  assert (S3 : same_elsewhere md_path w
                 (fwrite md_path ("---" ++ LF ++ LF)
                    (fwrite md_path (dump (YMap frontmatter))
                       (fwrite md_path ("---" ++ LF) w1)))).
  { eapply same_elsewhere_trans; [exact S0|].
    eapply same_elsewhere_trans; [apply same_elsewhere_fwrite|].
    eapply same_elsewhere_trans; apply same_elsewhere_fwrite. }
  destruct body; cbn [fst]; try exact S3.
  eapply same_elsewhere_trans; [exact S3|].
  eapply same_elsewhere_trans; apply same_elsewhere_fwrite.
Qed.

Lemma child_is_not_source (p : path) (file : string) :
  name p <> file -> p <> (parent p ++ [file])%list.
Proof.
  intros Hn Heq. apply Hn. rewrite Heq at 1. apply name_of_child.
Qed.

Lemma convert_tool_frame (p : path) (w w' : world) (outcome : bool * string) :
  Convert.convert_tool_yaml_to_md safe_load dump p w = Ok (outcome, w') ->
  same_elsewhere (parent p ++ ["tool.md"])%list w w'.
Proof.
  intros H. unfold Convert.convert_tool_yaml_to_md in H.
  destruct (Convert.load_file safe_load p w) as [data|e].
  - destruct (tool_document safe_load (name (parent p)) data) as [[fm body]|e];
      cbn [bind] in H; [|discriminate].
    pose proof (write_md_frame (parent p ++ ["tool.md"])%list fm (YStr body) w) as Hf.
    destruct (Convert.write_md dump (parent p ++ ["tool.md"])%list fm (YStr body) w)
      as [w2 [e|]]; injection H as _ <-; exact Hf.
  - injection H as _ <-. apply same_elsewhere_refl.
Qed.

Lemma convert_agent_frame (p : path) (w w' : world) (outcome : bool * string) :
  Convert.convert_agent_yaml_to_md safe_load dump p w = Ok (outcome, w') ->
  same_elsewhere (parent p ++ ["agent.md"])%list w w'.
Proof.
  intros H. unfold Convert.convert_agent_yaml_to_md in H.
  destruct (Convert.load_file safe_load p w) as [data|e].
  - destruct (agent_document (name (parent p)) data) as [[fm body]|e];
      cbn [bind] in H; [|discriminate].
    pose proof (write_md_frame (parent p ++ ["agent.md"])%list fm body w) as Hf.
    destruct (Convert.write_md dump (parent p ++ ["agent.md"])%list fm body w)
      as [w2 [e|]]; injection H as _ <-; exact Hf.
  - injection H as _ <-. apply same_elsewhere_refl.
Qed.

(** X13. Lines 50-181. Whatever a converter returns, the only file it
    creates or changes is [tool.md] (for an agent, [agent.md]) in the
    directory of its source; every other file, and the source itself,
    reads as before. *)
Theorem converters_touch_their_output_only
  (p : path) (w w' : world) (outcome : bool * string) :
  (Convert.convert_tool_yaml_to_md safe_load dump p w = Ok (outcome, w') ->
   same_elsewhere (parent p ++ ["tool.md"])%list w w'
   /\ (name p <> "tool.md" -> read_text p w' = read_text p w))
  /\ (Convert.convert_agent_yaml_to_md safe_load dump p w = Ok (outcome, w') ->
      same_elsewhere (parent p ++ ["agent.md"])%list w w'
      /\ (name p <> "agent.md" -> read_text p w' = read_text p w)).
Proof.
  assert (Hsrc : forall file,
             same_elsewhere (parent p ++ [file])%list w w' ->
             name p <> file -> read_text p w' = read_text p w).
  { intros file [Hs _] Hn. unfold read_text.
    now rewrite (Hs p (child_is_not_source p file Hn)). }
  split; intros H.
  - pose proof (convert_tool_frame p w w' outcome H) as Hs.
    split; [exact Hs | now apply Hsrc].
  - pose proof (convert_agent_frame p w w' outcome H) as Hs.
    split; [exact Hs | now apply Hsrc].
Qed.

End Writing.

(** ** The conversion run *)

Section ConversionRun.

Variable safe_load : string -> option yaml.
Variable dump : yaml -> string.

Lemma for_each_app {A S : Type} (body : A -> S -> result S) (xs ys : list A) (s : S) :
  for_each body (xs ++ ys)%list s = bind (for_each body xs s) (for_each body ys).
Proof.
  revert s. induction xs as [|x xs IH]; intros s; cbn [for_each app bind]; [reflexivity|].
  destruct (body x s); cbn [bind]; [apply IH | reflexivity].
Qed.

(** An invariant of a loop that does not raise. *)
Lemma for_each_invariant {A S : Type} (body : A -> S -> result S)
  (P : list A -> S -> Prop) (items : list A) (s s' : S) :
  P [] s ->
  (forall done a s1 s2, P done s1 -> In a items -> body a s1 = Ok s2 ->
                        P (done ++ [a])%list s2) ->
  for_each body items s = Ok s' ->
  P items s'.
Proof.
  intros H0 Hstep.
  assert (Hgen : forall todo done s1,
             (done ++ todo)%list = items -> P done s1 ->
             for_each body todo s1 = Ok s' -> P items s').
  { induction todo as [|a todo IH]; intros done s1 Hi Hp Hrun.
    - cbn in Hrun. injection Hrun as <-. rewrite app_nil_r in Hi. now subst.
    - cbn [for_each] in Hrun. destruct (body a s1) as [s2|e] eqn:Eb; [|discriminate].
      cbn [bind] in Hrun. apply (IH (done ++ [a])%list s2).
      + now rewrite <- app_assoc.
      + apply (Hstep done a s1 s2 Hp); [|exact Eb].
        rewrite <- Hi. apply in_or_app. right. now left.
      + exact Hrun. }
  intros Hrun. now apply (Hgen items [] s).
Qed.

Lemma tool_turn_effect (p : path) (s s' : Convert.state) :
  Convert.tool_turn safe_load dump p s = Ok s' ->
  exists outcome,
    Convert.convert_tool_yaml_to_md safe_load dump p (Convert.disk s)
    = Ok (outcome, Convert.disk s')
    /\ Convert.converted_tools s' + Convert.errors s'
       = S (Convert.converted_tools s + Convert.errors s)
    /\ Convert.converted_agents s' = Convert.converted_agents s
    /\ Convert.skipped s' = Convert.skipped s
    /\ Convert.errors s <= Convert.errors s'
    /\ List.length (Convert.printed s') = S (List.length (Convert.printed s)).
Proof.
  unfold Convert.tool_turn.
  destruct (Convert.convert_tool_yaml_to_md safe_load dump p (Convert.disk s))
    as [[[success message] w]|e]; cbn [bind]; [|discriminate].
  destruct success; intros H; injection H as <-; cbn;
    (eexists; split; [reflexivity|]); rewrite length_app; cbn; repeat split; lia.
Qed.

Lemma agent_turn_effect (p : path) (s s' : Convert.state) :
  Convert.agent_turn safe_load dump p s = Ok s' ->
  exists outcome,
    Convert.convert_agent_yaml_to_md safe_load dump p (Convert.disk s)
    = Ok (outcome, Convert.disk s')
    /\ Convert.converted_agents s' + Convert.errors s'
       = S (Convert.converted_agents s + Convert.errors s)
    /\ Convert.converted_tools s' = Convert.converted_tools s
    /\ Convert.skipped s' = Convert.skipped s
    /\ Convert.errors s <= Convert.errors s'
    /\ List.length (Convert.printed s') = S (List.length (Convert.printed s)).
Proof.
  unfold Convert.agent_turn.
  destruct (Convert.convert_agent_yaml_to_md safe_load dump p (Convert.disk s))
    as [[[success message] w]|e]; cbn [bind]; [|discriminate].
  destruct success; intros H; injection H as <-; cbn;
    (eexists; split; [reflexivity|]); rewrite length_app; cbn; repeat split; lia.
Qed.

Lemma conversion_loops_count_every_item_aux (items : list path) (s s' : Convert.state) :
  (for_each (Convert.tool_turn safe_load dump) items s = Ok s' ->
   Convert.converted_tools s' + Convert.errors s'
   = Convert.converted_tools s + Convert.errors s + List.length items
   /\ Convert.converted_agents s' = Convert.converted_agents s
   /\ Convert.skipped s' = Convert.skipped s
   /\ List.length (Convert.printed s') = List.length (Convert.printed s) + List.length items)
  /\ (for_each (Convert.agent_turn safe_load dump) items s = Ok s' ->
      Convert.converted_agents s' + Convert.errors s'
      = Convert.converted_agents s + Convert.errors s + List.length items
      /\ Convert.converted_tools s' = Convert.converted_tools s
      /\ Convert.skipped s' = Convert.skipped s
      /\ List.length (Convert.printed s')
         = List.length (Convert.printed s) + List.length items).
Proof.
  split; intros Hrun.
  - apply (for_each_invariant (Convert.tool_turn safe_load dump)
             (fun done s1 =>
                Convert.converted_tools s1 + Convert.errors s1
                = Convert.converted_tools s + Convert.errors s + List.length done
                /\ Convert.converted_agents s1 = Convert.converted_agents s
                /\ Convert.skipped s1 = Convert.skipped s
                /\ List.length (Convert.printed s1)
                   = List.length (Convert.printed s) + List.length done)
             items s s'); [cbn; repeat split; lia | | exact Hrun].
    intros done a s1 s2 (H1 & H2 & H3 & H4) _ Hb.
    destruct (tool_turn_effect a s1 s2 Hb) as (_ & _ & E1 & E2 & E3 & _ & E5).
    rewrite length_app. cbn [List.length]. repeat split; lia.
  - apply (for_each_invariant (Convert.agent_turn safe_load dump)
             (fun done s1 =>
                Convert.converted_agents s1 + Convert.errors s1
                = Convert.converted_agents s + Convert.errors s + List.length done
                /\ Convert.converted_tools s1 = Convert.converted_tools s
                /\ Convert.skipped s1 = Convert.skipped s
                /\ List.length (Convert.printed s1)
                   = List.length (Convert.printed s) + List.length done)
             items s s'); [cbn; repeat split; lia | | exact Hrun].
    intros done a s1 s2 (H1 & H2 & H3 & H4) _ Hb.
    destruct (agent_turn_effect a s1 s2 Hb) as (_ & _ & E1 & E2 & E3 & _ & E5).
    rewrite length_app. cbn [List.length]. repeat split; lia.
Qed.

(** X14. Lines 197-223. A loop of the conversion run that ends without
    raising has counted every item once, as converted or as error, has
    printed one line for each, and has left the other counters alone. *)
Theorem conversion_loops_count_every_item (items : list path) (s s' : Convert.state) :
  (for_each (Convert.tool_turn safe_load dump) items s = Ok s' ->
   Convert.converted_tools s' + Convert.errors s'
   = Convert.converted_tools s + Convert.errors s + List.length items
   /\ Convert.converted_agents s' = Convert.converted_agents s
   /\ Convert.skipped s' = Convert.skipped s
   /\ List.length (Convert.printed s') = List.length (Convert.printed s) + List.length items)
  /\ (for_each (Convert.agent_turn safe_load dump) items s = Ok s' ->
      Convert.converted_agents s' + Convert.errors s'
      = Convert.converted_agents s + Convert.errors s + List.length items
      /\ Convert.converted_tools s' = Convert.converted_tools s
      /\ Convert.skipped s' = Convert.skipped s
      /\ List.length (Convert.printed s')
         = List.length (Convert.printed s) + List.length items).
Proof. exact (conversion_loops_count_every_item_aux items s s'). Qed.

(** Storing a file whose fifth component is not the one a glob looks
    for does not change what the glob finds. *)
Lemma glob_plugins_store (kind file : string) (p : path) (text : string)
  (fs : list (path * string)) (ro ro' : list path) :
  String.eqb (nth 4 p "") file = false ->
  glob_plugins kind file {| files := store_file p text fs; readonly := ro |}
  = glob_plugins kind file {| files := fs; readonly := ro' |}.
Proof.
  intros H. unfold glob_plugins. cbn [files]. f_equal.
  match goal with |- context [filter ?h _] => set (hit := h) end.
  assert (Hp : forall text', hit (p, text') = false).
  { intros text'. subst hit. cbn [fst].
    destruct p as [|a [|b [|c [|d [|e r]]]]]; try reflexivity.
    cbn [nth] in H. now rewrite H, andb_false_r. }
  induction fs as [|[q old] fs IH]; cbn [store_file filter map].
  - now rewrite Hp.
  - destruct (path_eqb q p) eqn:E.
    + apply path_eqb_eq in E. subst q. cbn [filter]. now rewrite !Hp.
    + cbn [filter]. assert (Hq : hit (q, old) = hit (q, old)) by reflexivity.
      destruct (hit (q, old)); cbn [map]; now rewrite IH.
Qed.

Lemma glob_plugins_open_write (kind file : string) (p : path) (w w1 : world) :
  String.eqb (nth 4 p "") file = false ->
  open_write p w = Ok w1 -> glob_plugins kind file w1 = glob_plugins kind file w.
Proof.
  intros H. unfold open_write. destruct (existsb (path_eqb p) (readonly w)); [discriminate|].
  intros Ho. injection Ho as <-. destruct w as [fs ro]. now apply glob_plugins_store.
Qed.

Lemma glob_plugins_fwrite (kind file : string) (p : path) (text : string) (w : world) :
  String.eqb (nth 4 p "") file = false ->
  glob_plugins kind file (fwrite p text w) = glob_plugins kind file w.
Proof.
  intros H. unfold fwrite. destruct (lookup_file p (files w)); [|reflexivity].
  destruct w as [fs ro]. now apply glob_plugins_store.
Qed.

Lemma glob_plugins_write_md (kind file : string) (md_path : path)
  (frontmatter : dict) (body : yaml) (w : world) :
  String.eqb (nth 4 md_path "") file = false ->
  glob_plugins kind file (fst (Convert.write_md dump md_path frontmatter body w))
  = glob_plugins kind file w.
Proof.
  intros H. unfold Convert.write_md.
  destruct (open_write md_path w) as [w1|e] eqn:Ho; [|reflexivity].
  destruct body; cbn [fst];
    rewrite ?glob_plugins_fwrite by exact H;
    now apply (glob_plugins_open_write kind file md_path w w1).
Qed.

(** What a glob finds has five components. *)
Lemma glob_plugins_item (kind file : string) (w : world) (p : path) :
  In p (glob_plugins kind file w) -> List.length p = 5.
Proof.
  unfold glob_plugins. rewrite nodup_In, in_map_iff.
  intros [[q text] [<- Hin]]. apply filter_In in Hin. destruct Hin as [_ Hhit].
  cbn [fst] in *.
  destruct q as [|a [|b [|c [|d [|e r]]]]]; try discriminate Hhit. reflexivity.
Qed.

Lemma fifth_of_child (p : path) (file : string) :
  List.length p = 5 -> nth 4 (parent p ++ [file])%list "" = file.
Proof.
  destruct p as [|a [|b [|c [|d [|e [|f r]]]]]]; try discriminate. reflexivity.
Qed.

Lemma convert_tool_keeps_glob (kind file : string) (p : path) (w w' : world)
  (outcome : bool * string) :
  List.length p = 5 ->
  String.eqb "tool.md" file = false ->
  Convert.convert_tool_yaml_to_md safe_load dump p w = Ok (outcome, w') ->
  glob_plugins kind file w' = glob_plugins kind file w.
Proof.
  intros Hlen Hfile H. unfold Convert.convert_tool_yaml_to_md in H.
  destruct (Convert.load_file safe_load p w) as [data|e];
    [|injection H as _ <-; reflexivity].
  destruct (tool_document safe_load (name (parent p)) data) as [[fm body]|e];
    cbn [bind] in H; [|discriminate].
  pose proof (glob_plugins_write_md kind file (parent p ++ ["tool.md"])%list
                fm (YStr body) w) as Hg.
  rewrite (fifth_of_child p "tool.md" Hlen) in Hg. specialize (Hg Hfile).
  destruct (Convert.write_md dump (parent p ++ ["tool.md"])%list fm (YStr body) w)
    as [w2 [e|]]; injection H as _ <-; exact Hg.
Qed.

Lemma tools_loop_keeps_agents (items : list path) (s s' : Convert.state) :
  (forall p, In p items -> List.length p = 5) ->
  for_each (Convert.tool_turn safe_load dump) items s = Ok s' ->
  glob_plugins "agents" "agent.yaml" (Convert.disk s')
  = glob_plugins "agents" "agent.yaml" (Convert.disk s).
Proof.
  intros Hlen Hrun.
  apply (for_each_invariant (Convert.tool_turn safe_load dump)
           (fun _ s1 => glob_plugins "agents" "agent.yaml" (Convert.disk s1)
                        = glob_plugins "agents" "agent.yaml" (Convert.disk s))
           items s s'); [reflexivity | | exact Hrun].
  intros done a s1 s2 H1 Hin Hb.
  destruct (tool_turn_effect a s1 s2 Hb) as (outcome & Hc & _).
  rewrite <- H1.
  now apply (convert_tool_keeps_glob "agents" "agent.yaml" a _ _ outcome (Hlen a Hin)).
Qed.

Lemma print_effect (line : string) (s : Convert.state) :
  Convert.converted_tools (Convert.print line s) = Convert.converted_tools s
  /\ Convert.converted_agents (Convert.print line s) = Convert.converted_agents s
  /\ Convert.skipped (Convert.print line s) = Convert.skipped s
  /\ Convert.errors (Convert.print line s) = Convert.errors s
  /\ Convert.disk (Convert.print line s) = Convert.disk s
  /\ List.length (Convert.printed (Convert.print line s))
     = S (List.length (Convert.printed s)).
Proof. cbn. rewrite length_app. cbn. repeat split; lia. Qed.

(** X15. Lines 184-237. A conversion run that ends without raising
    returns status 0 when no item was an error and status 1 otherwise;
    every [tool.yaml] and every [agent.yaml] found under [plugins] at
    the start is counted once, as converted or as error; the skip
    counter stays at zero; and the output is one line for each item and
    twelve lines of headings and summary. *)
Theorem conversion_run_summary (w : world) (status : nat) (s : Convert.state) :
  Convert.main safe_load dump w = Ok (status, s) ->
  status = (if Convert.errors s =? 0 then 0 else 1)%nat
  /\ Convert.converted_tools s + Convert.converted_agents s + Convert.errors s
     = List.length (glob_plugins "tools" "tool.yaml" w)
       + List.length (glob_plugins "agents" "agent.yaml" w)
  /\ Convert.skipped s = 0
  /\ List.length (Convert.printed s)
     = 12 + List.length (glob_plugins "tools" "tool.yaml" w)
       + List.length (glob_plugins "agents" "agent.yaml" w).
Proof.
  unfold Convert.main.
  set (s0 := Convert.print "Converting tools..." _).
  change (Convert.disk s0) with w.
  destruct (for_each (Convert.tool_turn safe_load dump)
              (glob_plugins "tools" "tool.yaml" w) s0) as [s1|e] eqn:E1;
    cbn [bind]; [|discriminate].
  destruct (proj1 (conversion_loops_count_every_item_aux _ _ _) E1) as (T1 & T2 & T3 & T4).
  pose proof (tools_loop_keeps_agents _ _ _ (glob_plugins_item "tools" "tool.yaml" w) E1)
    as Hg.
  change (Convert.disk s0) with w in Hg.
  set (s2 := Convert.print "Converting agents..." (Convert.print "" s1)).
  change (Convert.disk s2) with (Convert.disk s1). rewrite Hg.
  destruct (for_each (Convert.agent_turn safe_load dump)
              (glob_plugins "agents" "agent.yaml" w) s2) as [s3|e] eqn:E2;
    cbn [bind]; [|discriminate].
  destruct (proj2 (conversion_loops_count_every_item_aux _ _ _) E2) as (A1 & A2 & A3 & A4).
  cbn in T1, T2, T3, T4, A1, A2, A3, A4. rewrite !length_app in A4. cbn in A4.
  cbn [Convert.errors Convert.print].
  destruct (0 <? Convert.errors s3)%nat eqn:Ee; intros H; injection H as <- <-; cbn;
    rewrite !length_app; cbn;
    [apply Nat.ltb_lt in Ee | apply Nat.ltb_ge in Ee];
    (destruct (Convert.errors s3 =? 0)%nat eqn:Ez;
     [apply Nat.eqb_eq in Ez | apply Nat.eqb_neq in Ez]);
    repeat split; lia.
Qed.

(** Files whose name is neither [tool.md] nor [agent.md] read the
    same in [w] and [w'], and the same paths are read-only. *)
Lemma sources_kept_step (file : string) (dir : path) (w0 w1 w2 : world) :
  (file = "tool.md" \/ file = "agent.md") ->
  ((forall q, name q <> "tool.md" -> name q <> "agent.md" ->
              lookup_file q (files w1) = lookup_file q (files w0))
   /\ readonly w1 = readonly w0) ->
  same_elsewhere (dir ++ [file])%list w1 w2 ->
  (forall q, name q <> "tool.md" -> name q <> "agent.md" ->
             lookup_file q (files w2) = lookup_file q (files w0))
  /\ readonly w2 = readonly w0.
Proof.
  intros Hfile [H1 R1] [H2 R2]. split; [|congruence].
  intros q Ht Ha. rewrite <- (H1 q Ht Ha). apply H2.
  intros ->. rewrite name_of_child in Ht, Ha. destruct Hfile; contradiction.
Qed.

(** X16. Lines 184-237. A conversion run that ends without raising has
    created or changed no file other than files named [tool.md] and
    [agent.md]: every [tool.yaml], [agent.yaml] and any other file
    reads as it did before the run. *)
Theorem conversion_run_keeps_sources (w : world) (status : nat) (s : Convert.state) :
  Convert.main safe_load dump w = Ok (status, s) ->
  (forall q, name q <> "tool.md" -> name q <> "agent.md" ->
             read_text q (Convert.disk s) = read_text q w)
  /\ readonly (Convert.disk s) = readonly w.
Proof.
  unfold Convert.main.
  set (s0 := Convert.print "Converting tools..." _).
  destruct (for_each (Convert.tool_turn safe_load dump)
              (glob_plugins "tools" "tool.yaml" (Convert.disk s0)) s0) as [s1|e] eqn:E1;
    cbn [bind]; [|discriminate].
  set (s2 := Convert.print "Converting agents..." (Convert.print "" s1)).
  destruct (for_each (Convert.agent_turn safe_load dump)
              (glob_plugins "agents" "agent.yaml" (Convert.disk s2)) s2) as [s3|e] eqn:E2;
    cbn [bind]; [|discriminate].
  assert (K1 : (forall q, name q <> "tool.md" -> name q <> "agent.md" ->
                          lookup_file q (files (Convert.disk s1)) = lookup_file q (files w))
               /\ readonly (Convert.disk s1) = readonly w).
  { apply (for_each_invariant (Convert.tool_turn safe_load dump)
             (fun _ s' =>
                (forall q, name q <> "tool.md" -> name q <> "agent.md" ->
                           lookup_file q (files (Convert.disk s')) = lookup_file q (files w))
                /\ readonly (Convert.disk s') = readonly w)
             (glob_plugins "tools" "tool.yaml" (Convert.disk s0)) s0 s1);
      [now split | | exact E1].
    intros done a sa sb Hinv _ Hb.
    destruct (tool_turn_effect a sa sb Hb) as (outcome & Hc & _).
    apply (sources_kept_step "tool.md" (parent a) w (Convert.disk sa));
      [now left | exact Hinv | exact (convert_tool_frame safe_load dump a _ _ outcome Hc)]. }
  assert (K2 : (forall q, name q <> "tool.md" -> name q <> "agent.md" ->
                          lookup_file q (files (Convert.disk s3)) = lookup_file q (files w))
               /\ readonly (Convert.disk s3) = readonly w).
  { apply (for_each_invariant (Convert.agent_turn safe_load dump)
             (fun _ s' =>
                (forall q, name q <> "tool.md" -> name q <> "agent.md" ->
                           lookup_file q (files (Convert.disk s')) = lookup_file q (files w))
                /\ readonly (Convert.disk s') = readonly w)
             (glob_plugins "agents" "agent.yaml" (Convert.disk s2)) s2 s3);
      [exact K1 | | exact E2].
    intros done a sa sb Hinv _ Hb.
    destruct (agent_turn_effect a sa sb Hb) as (outcome & Hc & _).
    apply (sources_kept_step "agent.md" (parent a) w (Convert.disk sa));
      [now right | exact Hinv | exact (convert_agent_frame safe_load dump a _ _ outcome Hc)]. }
  destruct K2 as [K2 R2].
  destruct (0 <? _)%nat; intros H; injection H as _ <-; cbn [Convert.disk Convert.print];
    (split; [|exact R2]); intros q Ht Ha; unfold read_text; now rewrite (K2 q Ht Ha).
Qed.

End ConversionRun.

(** ** The embedding step: running it again, and converting after it *)

Section EmbeddingRun.

Variable safe_load : string -> option yaml.
Variable dump : yaml -> string.

(** [embed_system_prompt] on readable files and a loaded record. *)
Lemma embed_system_prompt_run
  (tool_yaml_path skill_md_path : path) (w : world)
  (skill_content text : string) (td : dict) :
  read_text skill_md_path w = Ok skill_content ->
  read_text tool_yaml_path w = Ok text ->
  safe_load text = Some (YMap td) ->
  Embed.embed_system_prompt safe_load dump tool_yaml_path skill_md_path w
  = if implementation_without_marker td
    then Ok ((false, "No skill_directory reference"), w)
    else match open_write tool_yaml_path w with
         | Ok w1 =>
             Ok ((true, "Updated"),
                 fwrite tool_yaml_path
                   (dump (YMap (Embed.embed_fields td skill_content))) w1)
         | Raise e => Raise e
         end.
Proof.
  intros Hskill Htext Hload.
  unfold Embed.embed_system_prompt, Convert.load_file.
  rewrite Hskill, Htext. cbn [bind]. rewrite Hload. cbn [bind].
  rewrite no_skill_directory_record. cbn [bind].
  destruct (implementation_without_marker td); [reflexivity|].
  now destruct (open_write tool_yaml_path w).
Qed.

Lemma embedded_implementation_text :
  Py.contains "skill_directory" (py_str Embed.embedded_implementation) = false.
Proof. vm_compute. reflexivity. Qed.

Lemma embedded_record_is_marked (td : dict) (skill_content : string) :
  implementation_without_marker (Embed.embed_fields td skill_content) = true.
Proof.
  unfold implementation_without_marker, Embed.embed_fields.
  rewrite dict_get_set_same. now rewrite embedded_implementation_text.
Qed.

(** X17. Lines 23-39. Once a record has been embedded, embedding it
    again is skipped: after a successful run, a second run on the same
    two files (the loader reading back what was dumped) returns the
    skip outcome [No skill_directory reference] and writes nothing. *)
Theorem embedding_twice_skips
  (tool_yaml_path skill_md_path : path) (w : world)
  (skill_content text : string) (td : dict) :
  read_text skill_md_path w = Ok skill_content ->
  read_text tool_yaml_path w = Ok text ->
  safe_load text = Some (YMap td) ->
  implementation_without_marker td = false ->
  existsb (path_eqb tool_yaml_path) (readonly w) = false ->
  skill_md_path <> tool_yaml_path ->
  safe_load (dump (YMap (Embed.embed_fields td skill_content)))
  = Some (YMap (Embed.embed_fields td skill_content)) ->
  exists w',
    Embed.embed_system_prompt safe_load dump tool_yaml_path skill_md_path w
    = Ok ((true, "Updated"), w')
    /\ Embed.embed_system_prompt safe_load dump tool_yaml_path skill_md_path w'
       = Ok ((false, "No skill_directory reference"), w').
Proof.
  intros Hs Ht Hl Hg Hw Hne Hrt.
  destruct (open_write_writable _ _ Hw) as [w1 Ho].
  set (td' := Embed.embed_fields td skill_content) in *.
  exists (fwrite tool_yaml_path (dump (YMap td')) w1).
  rewrite (embed_system_prompt_run _ _ w skill_content text td Hs Ht Hl), Hg, Ho.
  split; [reflexivity|].
  destruct (open_write_effect _ _ _ Ho) as [H0 [F0 _]].
  pose proof (same_elsewhere_fwrite tool_yaml_path (dump (YMap td')) w1) as [F1 _].
  rewrite (embed_system_prompt_run _ _ _ skill_content (dump (YMap td')) td').
  - unfold td'. now rewrite embedded_record_is_marked.
  - unfold read_text in *. now rewrite (F1 _ Hne), (F0 _ Hne).
  - now apply (read_after_write _ _ w).
  - exact Hrt.
Qed.

(** X18. embed-system-prompts.py lines 27-33 with
    convert-to-markdown-format.py lines 84-119. A record that went
    through the embedding step with a skill document that is not empty
    and splits into a mapping and a body is converted without raising;
    its frontmatter has the implementation [{type: bash,
    scripts_directory: scripts}], and its body is the body of the skill
    document, or the generated one when that is empty. *)
Theorem embedded_record_converts_to_bash
  (tool_name : string) (td sf : dict) (skill_content skill_body : string) :
  skill_content <> "" ->
  parse_embedded_skill_md safe_load skill_content = (YMap sf, skill_body) ->
  exists frontmatter,
    tool_document safe_load tool_name (YMap (Embed.embed_fields td skill_content))
    = Ok (frontmatter,
          if String.eqb skill_body "" then no_content_body tool_name else skill_body)
    /\ dict_get "implementation" frontmatter
       = Some (YMap [("type", YStr "bash"); ("scripts_directory", YStr "scripts")]).
Proof.
  intros Hne Hp.
  set (td' := Embed.embed_fields td skill_content).
  assert (Hsp : dict_get "system_prompt" td' = Some (YStr skill_content)).
  { unfold td', Embed.embed_fields.
    rewrite dict_get_set_other by discriminate. apply dict_get_set_same. }
  assert (Hi : dict_get "implementation" td' = Some Embed.embedded_implementation).
  { unfold td', Embed.embed_fields. apply dict_get_set_same. }
  assert (Himpl : forall impl, dict_get "implementation" td' = Some impl ->
                               exists fields, impl = YMap fields).
  { intros impl H. rewrite Hi in H. injection H as <-. eexists. reflexivity. }
  eexists. split.
  { apply (tool_document_prompt_shape safe_load tool_name td' sf skill_content skill_body
             Hsp Hne Hp Himpl). }
  rewrite Hi. rewrite ?dict_get_app.
  destruct (dict_get "tags" td'); [|destruct (dict_get "tags" sf)];
    destruct (dict_get "input_schema" td'); vm_compute; reflexivity.
Qed.

(** X19. Lines 18-33. A [tool.yaml] that loads as anything but a record
    (an empty file, a text, a number, a list) makes the embedding step
    raise [TypeError] or [AttributeError]; nothing is written. *)
Theorem embed_rejects_non_records
  (tool_yaml_path skill_md_path : path) (w : world)
  (skill_content : string) (tool_data : yaml) :
  read_text skill_md_path w = Ok skill_content ->
  Convert.load_file safe_load tool_yaml_path w = Ok tool_data ->
  (forall td, tool_data <> YMap td) ->
  Embed.embed_system_prompt safe_load dump tool_yaml_path skill_md_path w = Raise TypeError
  \/ Embed.embed_system_prompt safe_load dump tool_yaml_path skill_md_path w
     = Raise AttributeError.
Proof.
  intros Hs Hl Hn. unfold Embed.embed_system_prompt. rewrite Hs, Hl. cbn [bind].
  unfold Embed.no_skill_directory.
  destruct tool_data as [| | |s| l |td]; cbn [Embed.py_in bind py_get]; auto.
  - destruct (Py.contains "implementation" s); cbn [bind]; auto.
  - destruct (existsb (is_str "implementation") l); cbn [bind]; auto.
  - now destruct (Hn td).
Qed.

Lemma embed_system_prompt_frame
  (tool_yaml_path skill_md_path : path) (w w' : world) (outcome : bool * string) :
  Embed.embed_system_prompt safe_load dump tool_yaml_path skill_md_path w
  = Ok (outcome, w') ->
  same_elsewhere tool_yaml_path w w'.
Proof.
  unfold Embed.embed_system_prompt.
  destruct (read_text skill_md_path w); cbn [bind]; [|discriminate].
  destruct (Convert.load_file safe_load tool_yaml_path w) as [data|];
    cbn [bind]; [|discriminate].
  destruct (Embed.no_skill_directory data) as [[|]|]; cbn [bind]; [| |discriminate].
  - intros H. injection H as _ <-. apply same_elsewhere_refl.
  - destruct data; try discriminate.
    destruct (open_write tool_yaml_path w) as [w1|] eqn:Ho; cbn [bind]; [|discriminate].
    intros H. injection H as _ <-.
    eapply same_elsewhere_trans; [apply (open_write_effect _ _ _ Ho)|].
    apply same_elsewhere_fwrite.
Qed.

Lemma fold_left_invariant {A S : Type} (f : S -> A -> S) (P : S -> Prop)
  (items : list A) (s : S) :
  P s -> (forall s1 a, P s1 -> P (f s1 a)) -> P (fold_left f items s).
Proof.
  intros H0 Hstep. revert s H0.
  induction items as [|a items IH]; intros s H0; cbn [fold_left]; auto.
Qed.

(** Files not named [tool.yaml] read the same as in [w]. *)
Lemma embed_tool_turn_keeps (w : world) (plugin : string) (s : Embed.state) (dir : path) :
  ((forall q, name q <> "tool.yaml" ->
              lookup_file q (files (Embed.disk s)) = lookup_file q (files w))
   /\ readonly (Embed.disk s) = readonly w) ->
  (forall q, name q <> "tool.yaml" ->
             lookup_file q (files (Embed.disk (Embed.tool_turn safe_load dump plugin s dir)))
             = lookup_file q (files w))
  /\ readonly (Embed.disk (Embed.tool_turn safe_load dump plugin s dir)) = readonly w.
Proof.
  intros Hinv. unfold Embed.tool_turn.
  destruct (negb (is_dir dir (Embed.disk s))); [exact Hinv|].
  destruct (negb (exists_path (dir ++ ["tool.yaml"])%list (Embed.disk s)));
    [exact Hinv|].
  destruct (negb (exists_path _ (Embed.disk s))); [exact Hinv|].
  destruct (Embed.embed_system_prompt safe_load dump (dir ++ ["tool.yaml"])%list _
              (Embed.disk s)) as [[[success message] w']|e] eqn:E; [|exact Hinv].
  destruct (embed_system_prompt_frame _ _ _ _ _ E) as [F R].
  destruct Hinv as [H1 R1].
  assert (K : (forall q, name q <> "tool.yaml" ->
                         lookup_file q (files w') = lookup_file q (files w))
              /\ readonly w' = readonly w).
  { split; [|congruence]. intros q Hq. rewrite <- (H1 q Hq). apply F.
    intros ->. now rewrite name_of_child in Hq. }
  destruct success; exact K.
Qed.

Lemma embed_plugin_turn_keeps (w : world) (s : Embed.state) (plugin : string) :
  ((forall q, name q <> "tool.yaml" ->
              lookup_file q (files (Embed.disk s)) = lookup_file q (files w))
   /\ readonly (Embed.disk s) = readonly w) ->
  (forall q, name q <> "tool.yaml" ->
             lookup_file q (files (Embed.disk (Embed.plugin_turn safe_load dump s plugin)))
             = lookup_file q (files w))
  /\ readonly (Embed.disk (Embed.plugin_turn safe_load dump s plugin)) = readonly w.
Proof.
  intros H1. unfold Embed.plugin_turn.
  set (s1 := Embed.print _ s).
  assert (Hs1 : (forall q, name q <> "tool.yaml" ->
                           lookup_file q (files (Embed.disk s1)) = lookup_file q (files w))
                /\ readonly (Embed.disk s1) = readonly w) by exact H1.
  clearbody s1.
  destruct (negb (exists_path ["plugins"; plugin; "tools"] (Embed.disk s1)));
    [exact Hs1|].
  change (Embed.disk (Embed.print "" ?x)) with (Embed.disk x).
  apply (fold_left_invariant (Embed.tool_turn safe_load dump plugin)
           (fun s2 => (forall q, name q <> "tool.yaml" ->
                                 lookup_file q (files (Embed.disk s2))
                                 = lookup_file q (files w))
                      /\ readonly (Embed.disk s2) = readonly w)); [exact Hs1|].
  intros s2 dir H2. now apply embed_tool_turn_keeps.
Qed.

Lemma embed_main_disk (w : world) :
  Embed.disk (snd (Embed.main safe_load dump w))
  = Embed.disk
      (fold_left (Embed.plugin_turn safe_load dump) Embed.plugins
         {| Embed.updated := 0; Embed.skipped := 0; Embed.errors := 0;
            Embed.printed := ["=== PHASE 2: Embed System Prompts ==="; ""];
            Embed.disk := w |}).
Proof.
  unfold Embed.main.
  set (s := fold_left (Embed.plugin_turn safe_load dump) Embed.plugins _).
  clearbody s.
  destruct (0 <? _)%nat; reflexivity.
Qed.

(** X20. Lines 41-99. The embedding run creates or changes no file
    other than files named [tool.yaml]: every [SKILL.md], and any other
    file, reads after the run as it did before. *)
Theorem embedding_run_keeps_skill_documents (w : world) (q : path) :
  name q <> "tool.yaml" ->
  read_text q (Embed.disk (snd (Embed.main safe_load dump w))) = read_text q w.
Proof.
  intros Hq. rewrite embed_main_disk.
  assert (K : (forall q, name q <> "tool.yaml" ->
                 lookup_file q
                   (files (Embed.disk
                      (fold_left (Embed.plugin_turn safe_load dump) Embed.plugins
                         {| Embed.updated := 0; Embed.skipped := 0; Embed.errors := 0;
                            Embed.printed := ["=== PHASE 2: Embed System Prompts ==="; ""];
                            Embed.disk := w |})))
                 = lookup_file q (files w))
              /\ readonly (Embed.disk
                     (fold_left (Embed.plugin_turn safe_load dump) Embed.plugins
                        {| Embed.updated := 0; Embed.skipped := 0; Embed.errors := 0;
                           Embed.printed := ["=== PHASE 2: Embed System Prompts ==="; ""];
                           Embed.disk := w |})) = readonly w).
  { apply (fold_left_invariant (Embed.plugin_turn safe_load dump)
             (fun s1 => (forall q, name q <> "tool.yaml" ->
                                   lookup_file q (files (Embed.disk s1))
                                   = lookup_file q (files w))
                        /\ readonly (Embed.disk s1) = readonly w)); [now split|].
    intros s1 plugin H1. now apply embed_plugin_turn_keeps. }
  unfold read_text. rewrite (proj1 K q Hq). reflexivity.
Qed.

End EmbeddingRun.

(** ** The splitter: what it returns on any text *)

Lemma rstrip_idempotent (s : string) : Py.rstrip (Py.rstrip s) = Py.rstrip s.
Proof.
  induction s as [|c s IH]; [reflexivity|].
  cbn [Py.rstrip]. destruct (Py.rstrip s) as [|c' r] eqn:E.
  - destruct (Py.is_space c) eqn:Ec; [reflexivity|].
    cbn [Py.rstrip]. now rewrite Ec.
  - cbn [Py.rstrip]. cbn [Py.rstrip] in IH.
    change (match Py.rstrip r with
            | "" => if Py.is_space c' then "" else String c' ""
            | String a s0 => String c' (String a s0)
            end) with (Py.rstrip (String c' r)) in *.
    now rewrite IH.
Qed.

Lemma lstrip_head (s : string) :
  Py.lstrip s = "" \/ exists c r, Py.lstrip s = String c r /\ Py.is_space c = false.
Proof.
  induction s as [|c s IH]; [now left|].
  cbn [Py.lstrip]. destruct (Py.is_space c) eqn:E; [exact IH|].
  right. now exists c, s.
Qed.

Lemma strip_idempotent (s : string) : Py.strip (Py.strip s) = Py.strip s.
Proof.
  unfold Py.strip. destruct (lstrip_head s) as [->|(c & r & -> & Hc)]; [reflexivity|].
  rewrite (rstrip_cons c r Hc). cbn [Py.lstrip]. rewrite Hc.
  rewrite <- (rstrip_cons c r Hc). apply rstrip_idempotent.
Qed.

Section SplitterResults.

Variable safe_load : string -> option yaml.

(** X21. Lines 20-47. Whatever the text, the body the splitter returns
    has no white space at either end: trimming it again changes
    nothing. *)
Theorem splitter_body_is_trimmed (content : string) :
  Py.strip (snd (parse_embedded_skill_md safe_load content))
  = snd (parse_embedded_skill_md safe_load content).
Proof.
  unfold parse_embedded_skill_md.
  destruct (negb (Py.startswith (Py.strip content) "---")); cbn [snd];
    [apply strip_idempotent|].
  destruct (List.length (Py.split "---" 2 content) <? 3)%nat; cbn [snd];
    apply strip_idempotent.
Qed.


End SplitterResults.

(** ** The embedding run: counters *)

Section EmbeddingCounters.

Variable safe_load : string -> option yaml.
Variable dump : yaml -> string.

Lemma embed_tool_turn_counts (plugin : string) (s : Embed.state) (dir : path) :
  let s' := Embed.tool_turn safe_load dump plugin s dir in
  Embed.updated s <= Embed.updated s'
  /\ Embed.skipped s <= Embed.skipped s'
  /\ Embed.errors s <= Embed.errors s'
  /\ Embed.updated s' + Embed.skipped s' + Embed.errors s'
     <= S (Embed.updated s + Embed.skipped s + Embed.errors s)
  /\ List.length (Embed.printed s') <= S (List.length (Embed.printed s)).
Proof.
  unfold Embed.tool_turn.
  destruct (negb (is_dir dir (Embed.disk s))); [cbn; repeat split; lia|].
  destruct (negb (exists_path (dir ++ ["tool.yaml"])%list (Embed.disk s)));
    [cbn; rewrite length_app; cbn; repeat split; lia|].
  destruct (negb (exists_path _ (Embed.disk s)));
    [cbn; rewrite length_app; cbn; repeat split; lia|].
  destruct (Embed.embed_system_prompt safe_load dump _ _ (Embed.disk s))
    as [[[[|] message] w']|e]; cbn; rewrite length_app; cbn; repeat split; lia.
Qed.

(** X23. Lines 58-85. Going through the entries of a plugin's tools
    directory never lowers a counter, adds at most one to the three
    counters together for each entry, and prints at most one line for
    each entry. *)
Theorem embedding_loop_counts_each_entry_once
  (plugin : string) (dirs : list path) (s : Embed.state) :
  Embed.updated s
  <= Embed.updated (fold_left (Embed.tool_turn safe_load dump plugin) dirs s)
  /\ Embed.skipped s
     <= Embed.skipped (fold_left (Embed.tool_turn safe_load dump plugin) dirs s)
  /\ Embed.errors s
     <= Embed.errors (fold_left (Embed.tool_turn safe_load dump plugin) dirs s)
  /\ Embed.updated (fold_left (Embed.tool_turn safe_load dump plugin) dirs s)
     + Embed.skipped (fold_left (Embed.tool_turn safe_load dump plugin) dirs s)
     + Embed.errors (fold_left (Embed.tool_turn safe_load dump plugin) dirs s)
     <= Embed.updated s + Embed.skipped s + Embed.errors s + List.length dirs
  /\ List.length
       (Embed.printed (fold_left (Embed.tool_turn safe_load dump plugin) dirs s))
     <= List.length (Embed.printed s) + List.length dirs.
Proof.
  revert s. induction dirs as [|dir dirs IH]; intros s; cbn [fold_left List.length].
  - repeat split; lia.
  - pose proof (embed_tool_turn_counts plugin s dir) as H. cbv zeta in H.
    specialize (IH (Embed.tool_turn safe_load dump plugin s dir)).
    repeat split; lia.
Qed.

End EmbeddingCounters.

(** ** Examples for the further properties *)

Lemma review_hypotheses :
  dict_get "system_prompt" review_record = Some (YStr review_prompt)
  /\ review_prompt <> ""
  /\ parse_embedded_skill_md review_load review_prompt
     = (YMap review_fields, "Review the change.")
  /\ (forall impl, dict_get "implementation" review_record = Some impl ->
                   exists fields, impl = YMap fields).
Proof.
  split; [reflexivity|]. split; [discriminate|]. split; [reflexivity|].
  intros impl H. injection H as <-. eexists. reflexivity.
Defined.

Lemma tool_implementation_normalised_witness :
  dict_get "implementation" review_record
  = Some (YMap [("type", YStr "embedded"); ("scripts_directory", YStr "scripts")])
  /\ exists frontmatter body fields',
       tool_document review_load "review" (YMap review_record) = Ok (frontmatter, body)
       /\ dict_get "implementation" frontmatter = Some (YMap fields')
       /\ dict_keys fields' = ["type"; "scripts_directory"]
       /\ dict_get "type" fields' = Some (YStr "bash")
       /\ dict_get "scripts_directory" fields' = Some (YStr "scripts").
Proof.
  assert (Hi : dict_get "implementation" review_record
               = Some (YMap [("type", YStr "embedded"); ("scripts_directory", YStr "scripts")]))
    by reflexivity.
  split; [exact Hi|].
  destruct review_hypotheses as (H1 & H2 & H3 & _).
  destruct (tool_implementation_normalised review_load "review" review_record
              review_fields _ review_prompt "Review the change." H1 H2 H3 Hi)
    as (fm & body & fields' & Hd & Hg & Hk & Ho & Ht & _).
  exists fm, body, fields'. split; [exact Hd|]. split; [exact Hg|].
  split; [exact Hk|]. split; [apply Ht; reflexivity|].
  rewrite Ho by discriminate. reflexivity.
Defined.



Lemma tool_llm_model_witness :
  exists frontmatter body,
    tool_document review_load "review" (YMap review_record) = Ok (frontmatter, body)
    /\ dict_get "llm" frontmatter = Some (YMap [("model", YStr "haiku")]).
Proof.
  destruct review_hypotheses as (H1 & H2 & H3 & H4).
  exact (tool_llm_model review_load "review" review_record review_fields
           review_prompt "Review the change." H1 H2 H3 H4).
Defined.

Lemma tool_frontmatter_keys_witness :
  exists frontmatter body,
    tool_document review_load "review" (YMap review_record) = Ok (frontmatter, body)
    /\ (forall k, In k (dict_keys frontmatter) ->
                  In k ["name"; "type"; "description"; "version";
                        "tags"; "parameters"; "implementation"; "llm"])
    /\ dict_get "system_prompt" frontmatter = None
    /\ ("Review the change." <> "" -> body = "Review the change.").
Proof.
  destruct review_hypotheses as (H1 & H2 & H3 & H4).
  exact (tool_frontmatter_keys review_load "review" review_record review_fields
           review_prompt "Review the change." H1 H2 H3 H4).
Defined.


Lemma convert_tool_writes_document_witness :
  Convert.load_file sample_load ["plugins"; "core"; "tools"; "fmt"; "tool.yaml"] convert_world
  = Ok (YMap [("name", YStr "fmt")])
  /\ exists w',
       Convert.convert_tool_yaml_to_md sample_load sample_dump
         ["plugins"; "core"; "tools"; "fmt"; "tool.yaml"] convert_world
       = Ok ((true, "Converted to tool.md"), w')
       /\ read_text ["plugins"; "core"; "tools"; "fmt"; "tool.md"] w'
          = Ok ("---" ++ LF ++ "name: fmt" ++ LF ++ "---" ++ LF ++ LF
                ++ "# Fmt" ++ LF ++ LF ++ "Utility tool with no system prompt." ++ LF).
Proof.
  assert (Hl : Convert.load_file sample_load
                 ["plugins"; "core"; "tools"; "fmt"; "tool.yaml"] convert_world
               = Ok (YMap [("name", YStr "fmt")])) by reflexivity.
  split; [exact Hl|].
  exact (convert_tool_writes_document sample_load sample_dump
           ["plugins"; "core"; "tools"; "fmt"; "tool.yaml"] convert_world
           (YMap [("name", YStr "fmt")]) [("name", YStr "fmt")]
           ("# Fmt" ++ LF ++ LF ++ "Utility tool with no system prompt.")
           Hl eq_refl eq_refl).
Defined.

Lemma convert_agent_writes_document_witness :
  Convert.load_file agent_load ["plugins"; "core"; "agents"; "helper"; "agent.yaml"]
    agents_world
  = Ok (YMap (helper_frontmatter ++ [("system_prompt", YStr "You help.")])%list)
  /\ exists frontmatter w',
       agent_document "helper"
         (YMap (helper_frontmatter ++ [("system_prompt", YStr "You help.")])%list)
       = Ok (frontmatter, YStr "You help.")
       /\ Convert.convert_agent_yaml_to_md agent_load sample_dump
            ["plugins"; "core"; "agents"; "helper"; "agent.yaml"] agents_world
          = Ok ((true, "Converted to agent.md"), w')
       /\ read_text ["plugins"; "core"; "agents"; "helper"; "agent.md"] w'
          = Ok ("---" ++ LF ++ sample_dump (YMap frontmatter) ++ "---" ++ LF ++ LF
                ++ "You help." ++ LF).
Proof.
  assert (Hl : Convert.load_file agent_load
                 ["plugins"; "core"; "agents"; "helper"; "agent.yaml"] agents_world
               = Ok (YMap (helper_frontmatter ++ [("system_prompt", YStr "You help.")])%list))
    by reflexivity.
  split; [exact Hl|].
  apply (convert_agent_writes_document agent_load sample_dump
           ["plugins"; "core"; "agents"; "helper"; "agent.yaml"] agents_world
           (helper_frontmatter ++ [("system_prompt", YStr "You help.")])%list
           "You help." Hl).
  - reflexivity.
  - discriminate.
  - reflexivity.
Defined.

Lemma convert_agent_non_text_prompt_witness :
  exists frontmatter w',
    agent_document "numbered" (YMap [("name", YStr "helper"); ("system_prompt", YInt 42)])
    = Ok (frontmatter, YInt 42)
    /\ Convert.convert_agent_yaml_to_md agent_load sample_dump
         ["plugins"; "core"; "agents"; "numbered"; "agent.yaml"] agents_world
       = Ok ((false, "Failed to write MD: TypeError"), w')
    /\ read_text ["plugins"; "core"; "agents"; "numbered"; "agent.md"] w'
       = Ok ("---" ++ LF ++ sample_dump (YMap frontmatter) ++ "---" ++ LF ++ LF).
Proof.
  apply (convert_agent_non_text_prompt agent_load sample_dump
           ["plugins"; "core"; "agents"; "numbered"; "agent.yaml"] agents_world
           [("name", YStr "helper"); ("system_prompt", YInt 42)] (YInt 42)).
  - reflexivity.
  - reflexivity.
  - reflexivity.
  - discriminate.
  - reflexivity.
Defined.


Lemma read_only_target_is_reported_witness :
  Convert.load_file sample_load ["plugins"; "core"; "tools"; "fmt"; "tool.yaml"] locked_world
  = Ok (YMap [("name", YStr "fmt")])
  /\ Convert.convert_tool_yaml_to_md sample_load sample_dump
       ["plugins"; "core"; "tools"; "fmt"; "tool.yaml"] locked_world
     = Ok ((false, "Failed to write MD: OSError"), locked_world).
Proof.
  assert (Hl : Convert.load_file sample_load
                 ["plugins"; "core"; "tools"; "fmt"; "tool.yaml"] locked_world
               = Ok (YMap [("name", YStr "fmt")])) by reflexivity.
  split; [exact Hl|].
  exact (proj1 (read_only_target_is_reported sample_load sample_dump
                  ["plugins"; "core"; "tools"; "fmt"; "tool.yaml"] locked_world
                  (YMap [("name", YStr "fmt")]) Hl)
           ([("name", YStr "fmt")],
            "# Fmt" ++ LF ++ LF ++ "Utility tool with no system prompt.")
           eq_refl eq_refl).
Defined.

Lemma unparsable_run :
  Convert.main sample_load sample_dump unparsable_world = Ok (1, unparsable_final).
Proof. vm_compute. reflexivity. Defined.

Lemma conversion_run_summary_witness :
  Convert.main sample_load sample_dump unparsable_world = Ok (1, unparsable_final)
  /\ Convert.converted_tools unparsable_final + Convert.converted_agents unparsable_final
     + Convert.errors unparsable_final
     = List.length (glob_plugins "tools" "tool.yaml" unparsable_world)
       + List.length (glob_plugins "agents" "agent.yaml" unparsable_world).
Proof.
  split; [exact unparsable_run|].
  exact (proj1 (proj2 (conversion_run_summary sample_load sample_dump unparsable_world
                         1 unparsable_final unparsable_run))).
Defined.

Lemma conversion_run_keeps_sources_witness :
  Convert.main sample_load sample_dump unparsable_world = Ok (1, unparsable_final)
  /\ (forall q, name q <> "tool.md" -> name q <> "agent.md" ->
                read_text q (Convert.disk unparsable_final) = read_text q unparsable_world).
Proof.
  split; [exact unparsable_run|].
  exact (proj1 (conversion_run_keeps_sources sample_load sample_dump unparsable_world
                  1 unparsable_final unparsable_run)).
Defined.

Lemma embedding_twice_skips_witness :
  exists w',
    Embed.embed_system_prompt embed_load sample_dump
      ["plugins"; "work"; "tools"; "fmt"; "tool.yaml"]
      ["plugins"; "work"; "skills"; "fmt"; "SKILL.md"] embed_world
    = Ok ((true, "Updated"), w')
    /\ Embed.embed_system_prompt embed_load sample_dump
         ["plugins"; "work"; "tools"; "fmt"; "tool.yaml"]
         ["plugins"; "work"; "skills"; "fmt"; "SKILL.md"] w'
       = Ok ((false, "No skill_directory reference"), w').
Proof.
  apply (embedding_twice_skips embed_load sample_dump
           ["plugins"; "work"; "tools"; "fmt"; "tool.yaml"]
           ["plugins"; "work"; "skills"; "fmt"; "SKILL.md"] embed_world
           "Formats." ("name: fmt" ++ LF) [("name", YStr "fmt")]).
  - reflexivity.
  - reflexivity.
  - reflexivity.
  - reflexivity.
  - reflexivity.
  - discriminate.
  - vm_compute. reflexivity.
Defined.

Lemma embedded_record_converts_to_bash_witness :
  echo_prompt <> ""
  /\ parse_embedded_skill_md sample_load echo_prompt
     = (YMap [("description", YStr "Echoes input")], "Run the echo command.")
  /\ exists frontmatter,
       tool_document sample_load "echo"
         (YMap (Embed.embed_fields [("name", YStr "echo")] echo_prompt))
       = Ok (frontmatter, "Run the echo command.")
       /\ dict_get "implementation" frontmatter
          = Some (YMap [("type", YStr "bash"); ("scripts_directory", YStr "scripts")]).
Proof.
  assert (H1 : echo_prompt <> "") by discriminate.
  assert (H2 : parse_embedded_skill_md sample_load echo_prompt
               = (YMap [("description", YStr "Echoes input")], "Run the echo command."))
    by reflexivity.
  split; [exact H1|]. split; [exact H2|].
  exact (embedded_record_converts_to_bash sample_load "echo" [("name", YStr "echo")]
           [("description", YStr "Echoes input")] echo_prompt "Run the echo command."
           H1 H2).
Defined.

Lemma embed_rejects_non_records_witness :
  read_text ["plugins"; "work"; "skills"; "broken"; "SKILL.md"] embed_world = Ok "Broken."
  /\ Convert.load_file sample_load ["plugins"; "work"; "tools"; "broken"; "tool.yaml"]
       embed_world = Ok YNull
  /\ (Embed.embed_system_prompt sample_load sample_dump
        ["plugins"; "work"; "tools"; "broken"; "tool.yaml"]
        ["plugins"; "work"; "skills"; "broken"; "SKILL.md"] embed_world = Raise TypeError
      \/ Embed.embed_system_prompt sample_load sample_dump
           ["plugins"; "work"; "tools"; "broken"; "tool.yaml"]
           ["plugins"; "work"; "skills"; "broken"; "SKILL.md"] embed_world
         = Raise AttributeError).
Proof.
  assert (H1 : read_text ["plugins"; "work"; "skills"; "broken"; "SKILL.md"] embed_world
               = Ok "Broken.") by reflexivity.
  assert (H2 : Convert.load_file sample_load
                 ["plugins"; "work"; "tools"; "broken"; "tool.yaml"] embed_world
               = Ok YNull) by reflexivity.
  split; [exact H1|]. split; [exact H2|].
  apply (embed_rejects_non_records sample_load sample_dump _ _ embed_world "Broken." YNull
           H1 H2).
  intros td. discriminate.
Defined.

Lemma embedding_run_keeps_skill_documents_witness :
  name ["plugins"; "work"; "skills"; "fmt"; "SKILL.md"] <> "tool.yaml"
  /\ read_text ["plugins"; "work"; "skills"; "fmt"; "SKILL.md"]
       (Embed.disk (snd (Embed.main sample_load sample_dump embed_world)))
     = read_text ["plugins"; "work"; "skills"; "fmt"; "SKILL.md"] embed_world.
Proof.
  assert (H : name ["plugins"; "work"; "skills"; "fmt"; "SKILL.md"] <> "tool.yaml")
    by discriminate.
  split; [exact H|].
  exact (embedding_run_keeps_skill_documents sample_load sample_dump embed_world
           ["plugins"; "work"; "skills"; "fmt"; "SKILL.md"] H).
Defined.

(** ** The conversion run: what ends it *)

Section ConversionAbort.

Variable safe_load : string -> option yaml.
Variable dump : yaml -> string.




End ConversionAbort.

